(** * A change monitor for one web page: model of [monitor.py]

    The program loads a small state dictionary from [state.json], performs a
    conditional GET on the target, normalises the text of the page, compares
    its SHA-256 fingerprint with the stored one and, when they differ, pushes
    a notification with a bounded diff before it writes the dictionary back.

    The model follows the program function by function.  Python [str] values
    are kept as their UTF-8 bytes ([string]); the state dictionary is a
    [gmap string value]; input/output goes through a state-and-exception
    monad over a [world] whose trace records every request and file write. *)

From Stdlib Require Import ZArith String Ascii List Bool Lia.
From stdpp Require Import base gmap strings list option.

Open Scope string_scope.
Open Scope list_scope.

(** ** Python string operations used by the program *)

Module PyStr.

Definition nl : string := String "010" EmptyString.

(** [s.startswith(p)] *)
Fixpoint startswith (s p : string) {struct p} : bool :=
  match p with
  | EmptyString => true
  | String a p' =>
      match s with
      | EmptyString => false
      | String b s' => Ascii.eqb a b && startswith s' p'
      end
  end.

(** [s.replace(old, new)]: leftmost, non-overlapping occurrences of [old]
    are replaced in one pass.  [skip] counts the characters of a matched
    occurrence that are still to be dropped; an empty [old] matches before
    every character (not inside its bytes) and at the end. *)
Fixpoint replace_from (old new : string) (skip : nat) (s : string) : string :=
  match s with
  | EmptyString => EmptyString
  | String c r =>
      match skip with
      | S k => replace_from old new k r
      | O =>
          if startswith s old
          then new +:+ replace_from old new (Nat.pred (String.length old)) r
          else String c (replace_from old new 0 r)
      end
  end.

(** Bytes 80..BF continue a character of more than one byte. *)
Definition is_continuation (c : ascii) : bool :=
  (128 <=? nat_of_ascii c)%nat && (nat_of_ascii c <? 192)%nat.

Fixpoint intersperse (new s : string) : string :=
  match s with
  | EmptyString => new
  | String c r =>
      (if is_continuation c then EmptyString else new) +:+ String c (intersperse new r)
  end.

Definition replace (s old new : string) : string :=
  match old with
  | EmptyString => intersperse new s
  | String _ _ => replace_from old new 0 s
  end.

Definition CRLF : string := String "013" (String "010" EmptyString).
Definition NEL : string := String "194" (String "133" EmptyString).
Definition LS : string := String "226" (String "128" (String "168" EmptyString)).
Definition PS : string := String "226" (String "128" (String "169" EmptyString)).

(** One-byte line boundaries of [str.splitlines]: LF, VT, FF, CR, FS, GS, RS. *)
Definition is_line_boundary (c : ascii) : bool :=
  match c with
  | "010" | "011" | "012" | "013" | "028" | "029" | "030" => true
  | _ => false
  end%char.

(** Number of bytes of the line boundary [s] starts with, 0 when it starts
    with none.  CR LF is one boundary; NEL, LS and PS are the boundaries
    outside ASCII. *)
Definition boundary_len (s : string) : nat :=
  if startswith s CRLF then 2
  else if startswith s NEL then 2
  else if startswith s LS then 3
  else if startswith s PS then 3
  else match s with
       | String c _ => if is_line_boundary c then 1 else 0
       | EmptyString => 0
       end.

Definition add_char (c : ascii) (ls : list string) : list string :=
  match ls with
  | [] => [String c EmptyString]
  | l :: t => String c l :: t
  end.

(** [s.splitlines()], reading [s] from a position that is [skip] bytes into
    a boundary.  A boundary at the very end opens no further line. *)
Fixpoint splitlines_from (skip : nat) (s : string) : list string :=
  match s with
  | EmptyString => []
  | String c r =>
      match skip with
      | S k => splitlines_from k r
      | O =>
          match boundary_len s with
          | O => add_char c (splitlines_from 0 r)
          | S k => EmptyString :: splitlines_from k r
          end
      end
  end.

Definition splitlines (s : string) : list string := splitlines_from 0 s.

(** [sep.join(ls)] *)
Definition join (sep : string) (ls : list string) : string := String.concat sep ls.

(** Truth value of a [str]: non-empty. *)
Definition nonempty (s : string) : bool := negb (String.eqb s "").

(** Number of LF characters of a string, and whether it has none. *)
Fixpoint count_nl (s : string) : nat :=
  match s with
  | EmptyString => 0
  | String c r => (if Ascii.eqb c "010" then 1 else 0) + count_nl r
  end.

Definition line_count (s : string) : nat := S (count_nl s).

Fixpoint has_char (c : ascii) (s : string) : bool :=
  match s with
  | EmptyString => false
  | String d r => Ascii.eqb c d || has_char c r
  end.

(** [needle in s] *)
Fixpoint contains (needle s : string) : bool :=
  startswith s needle ||
  match s with
  | EmptyString => false
  | String _ r => contains needle r
  end.

End PyStr.
Import PyStr.

(** ** Values, exceptions and the monad of runs *)

(** What the program stores under the keys of the state dictionary. *)
Inductive value : Type :=
| VNone
| VStr (s : string)
| VInt (z : Z).

#[global] Instance value_eq_dec : EqDecision value.
Proof. solve_decision. Defined.

(** Truth value, as in [if etag:]. *)
Definition truthy (v : value) : bool :=
  match v with
  | VNone => false
  | VStr s => nonempty s
  | VInt z => negb (z =? 0)%Z
  end.

(** [d.get(k)]: [None] for a missing key. *)
Definition dict_get (d : gmap string value) (k : string) : value :=
  default VNone (d !! k).

Inductive exn : Type :=
| AssertionError (msg : string)
| RequestException          (* connection error, timeout, ... *)
| HTTPError (status : Z)    (* raised by [raise_for_status] *)
| AttributeError
| SelectorSyntaxError
| re_error
| OverflowError             (* raised by [re] on a repetition count too large *)
| OtherException (name : string).   (* any other class, by its name *)

Inductive res (A : Type) : Type :=
| Ret (a : A)
| Raise (e : exn).
Arguments Ret {A} a.
Arguments Raise {A} e.

Inductive method : Type := GET | POST.

Record request : Type := mkRequest {
  req_method : method;
  req_url : string;
  req_headers : gmap string value;
  req_data : string;
  req_timeout : Z
}.

Record response : Type := mkResponse {
  status_code : Z;
  headers : string -> option string;   (* [resp.headers.get] *)
  text : string
}.

(** What the network does with a request: an answer, or no answer at all. *)
Inductive outcome : Type :=
| Answer (r : response)
| Failure.

Inductive event : Type :=
| Http (r : request)
| Write (d : gmap string value).

(** [state_file] is the decoded content of [state.json], when the file exists;
    [ticks] counts the readings of the clock; [trace] lists the requests sent
    and the writes to [state.json], oldest first. *)
Record world : Type := mkWorld {
  state_file : option (gmap string value);
  ticks : nat;
  trace : list event
}.

(** The surroundings of a run: how the network answers and what the clock
    shows at each reading (whole seconds). *)
Record environment : Type := mkEnv {
  http_get : request -> outcome;
  http_post : request -> outcome;
  clock : nat -> Z
}.

Definition with_post (env : environment) (post : request -> outcome) : environment :=
  {| http_get := http_get env; http_post := post; clock := clock env |}.

Definition M (A : Type) : Type := world -> res A * world.

Definition ret {A} (a : A) : M A := fun w => (Ret a, w).
Definition raise {A} (e : exn) : M A := fun w => (Raise e, w).
Definition bind {A B} (m : M A) (k : A -> M B) : M B :=
  fun w => match m w with
           | (Ret a, w') => k a w'
           | (Raise e, w') => (Raise e, w')
           end.

(** The result of a library call, in the monad. *)
Definition lift {A} (r : res A) : M A := fun w => (r, w).

(** [try: m  except Exception: h] *)
Definition try_except {A} (m : M A) (h : exn -> M A) : M A :=
  fun w => match m w with
           | (Ret a, w') => (Ret a, w')
           | (Raise e, w') => h e w'
           end.

Notation "'do' x <- c1 ;; c2" := (bind c1 (fun x => c2))
  (at level 10, x name, c1 at level 99, c2 at level 200, only parsing).
Notation "'do' ' pat <- c1 ;; c2" := (bind c1 (fun x => match x with pat => c2 end))
  (at level 10, pat pattern, c1 at level 99, c2 at level 200, only parsing).

Definition log (e : event) : M unit :=
  fun w => (Ret tt, {| state_file := state_file w; ticks := ticks w;
                       trace := trace w ++ [e] |}).

(** ** Configuration (read from the process environment at start-up) *)

Record config : Type := mkConfig {
  TARGET_URL : option string;
  CSS_SELECTOR : string;
  IGNORE_REGEX : string;
  USER_AGENT : string;
  NTFY_SERVER : string;
  NTFY_TOPIC : string;
  NOTIFY_TEMPLATE : string;
  NOTIFY_PREFIX : string;
  NOTIFY_TITLE : option string
}.


(** ** The libraries the program calls

    [hashlib], [difflib], [re], [bs4] and [time] are not part of the program;
    the model is parametric in them. *)
Class Library : Type := {
  (** [hashlib.sha256(s.encode("utf-8")).hexdigest()] *)
  sha256_hexdigest : string -> string;
  (** [list(difflib.unified_diff(a, b, lineterm=lineterm, n=n))] *)
  unified_diff : list string -> list string -> string -> nat -> list string;
  (** [re]: compiling a pattern raises [re.error] on an invalid one, and
      on some patterns another exception ([OverflowError], ...);
      [space_before_newline] is the compiled constant pattern [\s+\n] *)
  pattern : Type;
  re_compile : string -> res pattern;
  space_before_newline : pattern;
  pattern_sub : pattern -> string -> string -> string;
  (** [bs4]: parsing (the parser can reject the markup), [select_one]
      (which rejects a malformed selector) and
      [get_text(separator="\n", strip=True)] *)
  tag : Type;
  BeautifulSoup : string -> res tag;
  select_one : tag -> string -> res (option tag);
  get_text : tag -> string;
  (** [s.strip()] *)
  strip : string -> string;
  (** [time.strftime(fmt, time.localtime(t))] *)
  strftime : string -> Z -> string
}.

(** ** The program *)

Section Monitor.

Context {lib : Library} (cfg : config) (env : environment).

Definition default_state : gmap string value :=
  <["last_ok_run" := VNone]> (<["last_modified" := VNone]> (<["etag" := VNone]>
  (<["updated_at" := VNone]> (<["last_excerpt" := VStr ""]>
  (<["last_hash" := VNone]> ∅))))).

(** The dictionary a run starts from: the stored one, or the default. *)
Definition loaded (w : world) : gmap string value :=
  match state_file w with
  | Some d => d
  | None => default_state
  end.

Definition load_state : M (gmap string value) :=
  fun w => (Ret (loaded w), w).

Definition save_state (state : gmap string value) : M unit :=
  fun w => (Ret tt, {| state_file := Some state; ticks := ticks w;
                       trace := trace w ++ [Write state] |}).

(** [int(time.time())], and the clock reading inside [time.localtime()] *)
Definition time_time : M Z :=
  fun w => (Ret (clock env (ticks w)),
            {| state_file := state_file w; ticks := S (ticks w); trace := trace w |}).

Definition requests_get (url : string) (hs : gmap string value) (timeout : Z) : M response :=
  let rq := mkRequest GET url hs "" timeout in
  do _ <- log (Http rq) ;;
  match http_get env rq with
  | Answer r => ret r
  | Failure => raise RequestException
  end.

Definition requests_post (url data : string) (hs : gmap string value) (timeout : Z) : M response :=
  let rq := mkRequest POST url hs data timeout in
  do _ <- log (Http rq) ;;
  match http_post env rq with
  | Answer r => ret r
  | Failure => raise RequestException
  end.

(** [resp.raise_for_status()]: client and server errors raise. *)
Definition raise_for_status (resp : response) : M unit :=
  if ((400 <=? status_code resp) && (status_code resp <? 600))%Z
  then raise (HTTPError (status_code resp))
  else ret tt.

Definition send_ntfy (title text : string) : M unit :=
  if negb (nonempty (NTFY_TOPIC cfg)) then ret tt
  else
    try_except
      (let url := NTFY_SERVER cfg +:+ "/" +:+ NTFY_TOPIC cfg in
       let hs : gmap string value :=
         <["Priority" := VStr "4"]> (<["Tags" := VStr "bell"]> (<["Title" := VStr title]> ∅)) in
       do _ <- requests_post url text hs 20 ;;
       ret tt)
      (fun _ => ret tt).

Definition time_format : string := "%Y-%m-%d %H:%M:%S %Z".

(** The body of [build_message] once [now] has been formatted. *)
Definition message_text (now url diff_block : string) : string :=
  if nonempty (NOTIFY_TEMPLATE cfg) then
    replace (replace (replace (NOTIFY_TEMPLATE cfg) "{URL}" url) "{TIME}" now)
      "{DIFF}" diff_block
  else
    NOTIFY_PREFIX cfg +:+ nl +:+
    "URL: " +:+ url +:+ nl +:+
    "Zeit: " +:+ now +:+ nl +:+ nl +:+
    "*Kurzdiff:*" +:+ nl +:+ "```" +:+ nl +:+ diff_block +:+ nl +:+ "```".

Definition build_message (url diff_block : string) : M string :=
  do t <- time_time ;;
  let now := strftime time_format t in
  ret (message_text now url diff_block).

(** [re.sub(pat, repl, s)] *)
Definition re_sub (pat repl s : string) : M string :=
  do p <- lift (re_compile pat) ;;
  ret (pattern_sub p repl s).

(** The request headers of [fetch_content]: the validators are sent when
    they are set. *)
Definition conditional_headers (etag last_modified : value) : gmap string value :=
  let hs : gmap string value := <["User-Agent" := VStr (USER_AGENT cfg)]> ∅ in
  let hs := if truthy etag then <["If-None-Match" := etag]> hs else hs in
  if truthy last_modified then <["If-Modified-Since" := last_modified]> hs else hs.

Definition fetch_content (url : string) (etag last_modified : value)
  : M (option string * value * value * bool) :=
  let hs := conditional_headers etag last_modified in
  do resp <- requests_get url hs 30 ;;
  if (status_code resp =? 304)%Z then ret (None, etag, last_modified, true)
  else
    do _ <- raise_for_status resp ;;
    let etag_new := match headers resp "ETag" with Some s => VStr s | None => etag end in
    let lm_new :=
      match headers resp "Last-Modified" with Some s => VStr s | None => last_modified end in
    let html := text resp in
    do soup <- lift (BeautifulSoup html) ;;
    do text <- (if nonempty (CSS_SELECTOR cfg) then
               do node <- lift (select_one soup (CSS_SELECTOR cfg)) ;;
               match node with
               | Some node => ret (get_text node)
               | None => ret (get_text soup)
               end
             else ret (get_text soup)) ;;
    do text <- (if nonempty (IGNORE_REGEX cfg) then
               try_except (re_sub (IGNORE_REGEX cfg) "" text)
                 (fun e => match e with re_error => ret text | _ => raise e end)
             else ret text) ;;
    let text := pattern_sub space_before_newline nl text in
    ret (Some (strip text), etag_new, lm_new, false).

Definition sha256 (s : string) : string := sha256_hexdigest s.

Definition placeholder : string := "(Inhalt geändert)".

(** [pretty_diff] of [main], for the stored excerpt and the new text *)
Definition pretty_diff (old_excerpt content : string) : string :=
  let old := splitlines old_excerpt in
  let new := splitlines content in
  let diff_lines := unified_diff old new "" 5 in
  match diff_lines with
  | [] => placeholder
  | _ :: _ => join nl (take 60 diff_lines)
  end.

(** The excerpt stored with a fingerprint: the first 400 lines. *)
Definition excerpt (content : string) : string :=
  join nl (take 400 (splitlines content)).

Definition main : M unit :=
  match TARGET_URL cfg with
  | None => raise (AssertionError "TARGET_URL fehlt als Umgebungsvariable.")
  | Some target =>
    if negb (nonempty target)
    then raise (AssertionError "TARGET_URL fehlt als Umgebungsvariable.")
    else
      do state <- load_state ;;
      do '(content, etag, last_modified, not_modified) <-
        fetch_content target (dict_get state "etag") (dict_get state "last_modified") ;;
      if not_modified : bool then
        do t <- time_time ;;
        save_state (<["last_ok_run" := VInt t]> state)
      else
        do content <- match content with
                   | Some c => ret c
                   | None => raise AttributeError
                   end ;;
        let new_hash := sha256 content in
        let old_hash := dict_get state "last_hash" in
        do state <- (if negb (bool_decide (VStr new_hash = old_hash)) then
                    do old_excerpt <- match state !! "last_excerpt" with
                                   | None => ret ""
                                   | Some (VStr s) => ret s
                                   | Some _ => raise AttributeError
                                   end ;;
                    do text <- build_message target (pretty_diff old_excerpt content) ;;
                    do _ <- send_ntfy (default "Ergebnis M2" (NOTIFY_TITLE cfg)) text ;;
                    let state := <["last_hash" := VStr new_hash]> state in
                    let state := <["last_excerpt" := VStr (excerpt content)]> state in
                    do t <- time_time ;;
                    ret (<["updated_at" := VInt t]> state)
                  else ret state) ;;
        let state := <["etag" := etag]> state in
        let state := <["last_modified" := last_modified]> state in
        do t <- time_time ;;
        save_state (<["last_ok_run" := VInt t]> state)
  end.

End Monitor.

(** * Reference implementations of the libraries

    They give the model something to run on: SHA-256 and the unified diff
    follow the libraries step by step; text extraction and regular
    expressions cover pages of plain ASCII text only. *)

(** ** SHA-256 (FIPS 180-4), on 32-bit words kept in [Z] *)

Module SHA256.

Local Open Scope Z_scope.

Definition wrap (x : Z) : Z := x mod 2 ^ 32.
Definition add (x y : Z) : Z := wrap (x + y).
Definition rotr (n x : Z) : Z := Z.lor (Z.shiftr x n) (wrap (Z.shiftl x (32 - n))).
Definition xor3 (x y z : Z) : Z := Z.lxor x (Z.lxor y z).

Definition Ch (x y z : Z) : Z :=
  Z.lxor (Z.land x y) (Z.land (Z.lxor x 0xffffffff) z).
Definition Maj (x y z : Z) : Z :=
  xor3 (Z.land x y) (Z.land x z) (Z.land y z).
Definition Sigma0 (x : Z) : Z := xor3 (rotr 2 x) (rotr 13 x) (rotr 22 x).
Definition Sigma1 (x : Z) : Z := xor3 (rotr 6 x) (rotr 11 x) (rotr 25 x).
Definition sigma0 (x : Z) : Z := xor3 (rotr 7 x) (rotr 18 x) (Z.shiftr x 3).
Definition sigma1 (x : Z) : Z := xor3 (rotr 17 x) (rotr 19 x) (Z.shiftr x 10).

(** The largest [r] below [2 ^ bits] with [r ^ 3 <= n], bit by bit. *)
Fixpoint cube_root (bits : nat) (n r : Z) : Z :=
  match bits with
  | O => r
  | S b =>
      let r' := r + 2 ^ Z.of_nat b in
      cube_root b n (if r' * r' * r' <=? n then r' else r)
  end.

Definition is_prime (n : nat) : bool :=
  forallb (fun d => negb (n mod d =? 0)%nat) (seq 2 (n - 2)).

Definition primes (count : nat) : list Z :=
  map Z.of_nat (firstn count (List.filter is_prime (seq 2 320))).

(** The round constants: the first 32 bits of the fractional parts of the
    cube roots of the first 64 primes. *)
Definition K : list Z :=
  Eval vm_compute in map (fun p => wrap (cube_root 36 (p * 2 ^ 96) 0)) (primes 64).

(** The initial hash value: the same of the square roots of the first 8. *)
Definition H0 : list Z :=
  Eval vm_compute in map (fun p => wrap (Z.sqrt (p * 2 ^ 64))) (primes 8).

Definition bytes_of (s : string) : list Z :=
  map (fun c => Z.of_N (N_of_ascii c)) (list_ascii_of_string s).

(** Big-endian bytes of [x], [n] of them. *)
Fixpoint be_bytes (n : nat) (x : Z) : list Z :=
  match n with
  | O => []
  | S k => Z.shiftr x (8 * Z.of_nat k) mod 256 :: be_bytes k x
  end.

(** The message, a 1 bit, zeros up to 56 modulo 64, and the bit length. *)
Definition pad (msg : list Z) : list Z :=
  let len := Z.of_nat (length msg) in
  let zeros := Z.to_nat ((55 - len) mod 64) in
  msg ++ [0x80] ++ repeat 0 zeros ++ be_bytes 8 (8 * len).

Fixpoint words (fuel : nat) (bs : list Z) : list Z :=
  match fuel, bs with
  | S k, b0 :: b1 :: b2 :: b3 :: r =>
      (((b0 * 256 + b1) * 256 + b2) * 256 + b3) :: words k r
  | _, _ => []
  end.

(** The 64-word schedule, newest word first. *)
Fixpoint schedule (n : nat) (rev_w : list Z) : list Z :=
  match n with
  | O => rev_w
  | S k =>
      let at_ i := nth i rev_w 0 in
      schedule k
        (add (add (sigma1 (at_ 1%nat)) (at_ 6%nat))
             (add (sigma0 (at_ 14%nat)) (at_ 15%nat)) :: rev_w)
  end.

Definition round (s : list Z) (kw : Z * Z) : list Z :=
  match s with
  | [a; b; c; d; e; f; g; h] =>
      let t1 := add (add (add h (Sigma1 e)) (add (Ch e f g) (fst kw))) (snd kw) in
      let t2 := add (Sigma0 a) (Maj a b c) in
      [add t1 t2; a; b; c; add d t1; e; f; g]
  | _ => s
  end.

Definition compress (h : list Z) (block : list Z) : list Z :=
  let w := rev (schedule 48 (rev block)) in
  let s := fold_left round (combine K w) h in
  map (fun p => add (fst p) (snd p)) (combine h s).

Fixpoint blocks (fuel : nat) (ws : list Z) : list (list Z) :=
  match fuel, ws with
  | _, [] => []
  | O, _ => []
  | S k, _ => firstn 16 ws :: blocks k (skipn 16 ws)
  end.

Definition digest (s : string) : list Z :=
  let bs := pad (bytes_of s) in
  let ws := words (length bs) bs in
  fold_left compress (blocks (length ws) ws) H0.

Definition hex_digit (d : Z) : ascii :=
  nth (Z.to_nat d) (list_ascii_of_string "0123456789abcdef") "0"%char.

Fixpoint hex (n : nat) (x : Z) : string :=
  match n with
  | O => EmptyString
  | S k => String (hex_digit (Z.shiftr x (4 * Z.of_nat k) mod 16)) (hex k x)
  end.

Definition hexdigest (s : string) : string :=
  String.concat "" (map (hex 8) (digest s)).

End SHA256.

(** ** [difflib.unified_diff] over lists of lines *)

Module Difflib.

Local Open Scope nat_scope.

Inductive tag : Type := Replace | Delete | Insert | Equal.

(** An opcode [(tag, i1, i2, j1, j2)]. *)
Definition opcode : Type := tag * nat * nat * nat * nat.

Fixpoint digits (fuel n : nat) (acc : string) : string :=
  match fuel with
  | O => acc
  | S f =>
      let d := ascii_of_nat (48 + n mod 10) in
      if n <? 10 then String d acc else digits f (n / 10) (String d acc)
  end.

(** ['{}'.format(n)] *)
Definition decimal (n : nat) : string := digits (S n) n EmptyString.

Section Matcher.

Variables a b : list string.

(** Positions of [x] in [b], ascending. *)
Definition positions (x : string) : list nat :=
  filter (fun j => bool_decide (b !! j = Some x)) (seq 0 (length b)).

(** With 200 lines or more, a line that makes up more than 1% of [b]
    (plus one) is no longer used to start a match. *)
Definition popular (x : string) : bool :=
  (200 <=? length b) && (length b / 100 + 1 <? length (positions x)).

Definition b2j (x : string) : list nat :=
  if popular x then [] else positions x.

Definition j2len_get (j2len : list (nat * nat)) (j : nat) : nat :=
  match j with
  | O => 0
  | S j' =>
      match find (fun p => fst p =? j') j2len with
      | Some p => snd p
      | None => 0
      end
  end.

Definition best : Type := nat * nat * nat.

Definition scan_row (blo bhi : nat) (j2len : list (nat * nat)) (i : nat)
  (bst : best) (js : list nat) : list (nat * nat) * best :=
  fold_left
    (fun (st : list (nat * nat) * best) j =>
       let '(new, (bi, bj, bsize)) := st in
       if (j <? blo) || (bhi <=? j) then st
       else
         let k := j2len_get j2len j + 1 in
         ((j, k) :: new,
          if bsize <? k then (i + 1 - k, j + 1 - k, k) else (bi, bj, bsize)))
    js ([], bst).

Fixpoint extend_back (fuel alo blo : nat) (bst : best) : best :=
  match fuel with
  | O => bst
  | S f =>
      let '(bi, bj, bsize) := bst in
      if (alo <? bi) && (blo <? bj)
         && bool_decide (a !! (bi - 1) = b !! (bj - 1))
      then extend_back f alo blo (bi - 1, bj - 1, bsize + 1)
      else bst
  end.

Fixpoint extend_forth (fuel ahi bhi : nat) (bst : best) : best :=
  match fuel with
  | O => bst
  | S f =>
      let '(bi, bj, bsize) := bst in
      if (bi + bsize <? ahi) && (bj + bsize <? bhi)
         && bool_decide (a !! (bi + bsize) = b !! (bj + bsize))
      then extend_forth f ahi bhi (bi, bj, bsize + 1)
      else bst
  end.

Definition find_longest_match (alo ahi blo bhi : nat) : best :=
  let '(_, bst) :=
    fold_left
      (fun (st : list (nat * nat) * best) i =>
         let '(j2len, bst) := st in
         scan_row blo bhi j2len i bst (b2j (default "" (a !! i))))
      (seq alo (ahi - alo)) ([], (alo, blo, 0)) in
  extend_forth (length a) ahi bhi (extend_back (length a) alo blo bst).

Fixpoint find_blocks (fuel alo ahi blo bhi : nat) : list best :=
  match fuel with
  | O => []
  | S f =>
      let '(i, j, k) := find_longest_match alo ahi blo bhi in
      if k =? 0 then []
      else
        (if (alo <? i) && (blo <? j) then find_blocks f alo i blo j else [])
        ++ [(i, j, k)]
        ++ (if (i + k <? ahi) && (j + k <? bhi)
            then find_blocks f (i + k) ahi (j + k) bhi else [])
  end.

(** Adjacent blocks are merged; the list ends with the sentinel
    [(len a, len b, 0)]. *)
Definition get_matching_blocks : list best :=
  let '(out, (i1, j1, k1)) :=
    fold_left
      (fun (st : list best * best) (x : best) =>
         let '(out, (i1, j1, k1)) := st in
         let '(i2, j2, k2) := x in
         if (i1 + k1 =? i2) && (j1 + k1 =? j2) then (out, (i1, j1, k1 + k2))
         else ((if k1 =? 0 then out else out ++ [(i1, j1, k1)]), x))
      (find_blocks (S (length a)) 0 (length a) 0 (length b)) ([], (0, 0, 0)) in
  (if k1 =? 0 then out else out ++ [(i1, j1, k1)]) ++ [(length a, length b, 0)].

Definition get_opcodes : list opcode :=
  let '(out, _, _) :=
    fold_left
      (fun (st : list opcode * nat * nat) (x : best) =>
         let '(out, i, j) := st in
         let '(ai, bj, size) := x in
         let out :=
           if (i <? ai) && (j <? bj) then out ++ [(Replace, i, ai, j, bj)]
           else if i <? ai then out ++ [(Delete, i, ai, j, bj)]
           else if j <? bj then out ++ [(Insert, i, ai, j, bj)]
           else out in
         ((if size =? 0 then out
           else out ++ [(Equal, ai, ai + size, bj, bj + size)]),
          ai + size, bj + size))
      get_matching_blocks ([], 0, 0) in
  out.

Definition is_equal (c : opcode) : bool :=
  match c with (Equal, _, _, _, _) => true | _ => false end.

Definition trim_first (n : nat) (codes : list opcode) : list opcode :=
  match codes with
  | (Equal, i1, i2, j1, j2) :: r =>
      (Equal, Nat.max i1 (i2 - n), i2, Nat.max j1 (j2 - n), j2) :: r
  | _ => codes
  end.

Fixpoint trim_last (n : nat) (codes : list opcode) : list opcode :=
  match codes with
  | [] => []
  | [(Equal, i1, i2, j1, j2)] =>
      [(Equal, i1, Nat.min i2 (i1 + n), j1, Nat.min j2 (j1 + n))]
  | c :: r => c :: trim_last n r
  end.

Definition get_grouped_opcodes (n : nat) : list (list opcode) :=
  let codes := match get_opcodes with [] => [(Equal, 0, 1, 0, 1)] | cs => cs end in
  let codes := trim_last n (trim_first n codes) in
  let '(groups, group) :=
    fold_left
      (fun (st : list (list opcode) * list opcode) (c : opcode) =>
         let '(groups, group) := st in
         let '(t, i1, i2, j1, j2) := c in
         if is_equal c && (n + n <? i2 - i1) then
           (groups ++ [group ++ [(t, i1, Nat.min i2 (i1 + n), j1, Nat.min j2 (j1 + n))]],
            [(t, Nat.max i1 (i2 - n), i2, Nat.max j1 (j2 - n), j2)])
         else (groups, group ++ [c]))
      codes ([], []) in
  match group with
  | [] => groups
  | [c] => if is_equal c then groups else groups ++ [group]
  | _ => groups ++ [group]
  end.

Definition slice {A} (l : list A) (i1 i2 : nat) : list A := take (i2 - i1) (drop i1 l).

Definition format_range_unified (start stop : nat) : string :=
  let beginning := start + 1 in
  let len := stop - start in
  if len =? 1 then decimal beginning
  else decimal (if len =? 0 then beginning - 1 else beginning) +:+ "," +:+ decimal len.

Definition prefixed (p : string) (ls : list string) : list string :=
  map (fun l => p +:+ l) ls.

Definition hunk_lines (c : opcode) : list string :=
  let '(t, i1, i2, j1, j2) := c in
  match t with
  | Equal => prefixed " " (slice a i1 i2)
  | Replace => prefixed "-" (slice a i1 i2) ++ prefixed "+" (slice b j1 j2)
  | Delete => prefixed "-" (slice a i1 i2)
  | Insert => prefixed "+" (slice b j1 j2)
  end.

Definition hunk (lineterm : string) (group : list opcode) : list string :=
  match group with
  | (_, i1, _, j1, _) as first :: _ =>
      let '(_, _, i2, _, j2) := List.last group first in
      ("@@ -" +:+ format_range_unified i1 i2 +:+ " +" +:+ format_range_unified j1 j2
         +:+ " @@" +:+ lineterm)
      :: concat (map hunk_lines group)
  | [] => []
  end.

(** [fromfile], [tofile] and the dates are left at their defaults. *)
Definition unified_diff (lineterm : string) (n : nat) : list string :=
  match get_grouped_opcodes n with
  | [] => []
  | groups =>
      ("--- " +:+ lineterm) :: ("+++ " +:+ lineterm) :: concat (map (hunk lineterm) groups)
  end.

End Matcher.

End Difflib.

(** ** Text and time functions for pages of plain ASCII text

    Each function answers as the library does on the inputs it reads, and
    stops with [unsupported] on the others. *)

Module Plain.

Definition unsupported : exn := OtherException "NotImplementedError".

(** ASCII white space: TAB, LF, VT, FF, CR, FS, GS, RS, US and the space. *)
Definition is_space (c : ascii) : bool :=
  let n := nat_of_ascii c in
  ((9 <=? n) && (n <=? 13) || (28 <=? n) && (n <=? 32))%nat.

Fixpoint lstrip (s : string) : string :=
  match s with
  | EmptyString => EmptyString
  | String c r => if is_space c then lstrip r else s
  end.

Definition strip (s : string) : string :=
  String.rev (lstrip (String.rev (lstrip s))).

(** What follows the last line feed of [s], if it has one. *)
Fixpoint after_last_nl (s : string) : option string :=
  match s with
  | EmptyString => None
  | String c r =>
      match after_last_nl r with
      | Some t => Some t
      | None => if Ascii.eqb c "010" then Some r else None
      end
  end.

(** A run of white space matches [\s+\n] up to its last line feed, unless
    that is its first character; the match is replaced by [repl]. *)
Definition flush (repl run : string) : string :=
  match run with
  | EmptyString => EmptyString
  | String _ r =>
      match after_last_nl r with
      | Some t => repl +:+ t
      | None => run
      end
  end.

(** [re.sub(r"\s+\n", repl, s)], with the white space read so far in [run] *)
Fixpoint collapse_from (repl run s : string) : string :=
  match s with
  | EmptyString => flush repl run
  | String c r =>
      if is_space c then collapse_from repl (run +:+ String c EmptyString) r
      else flush repl run +:+ String c (collapse_from repl EmptyString r)
  end.

(** The patterns of this fragment: a literal text, and white space before
    a line feed. *)
Inductive regex : Type :=
| Literal (s : string)
| SpaceBeforeLF.

Definition is_special (c : ascii) : bool :=
  has_char c ".^$*+?{}[]\|()".

Definition is_plain (c : ascii) : bool :=
  negb (is_special c) && (nat_of_ascii c <? 128)%nat.

Definition is_digit (c : ascii) : bool :=
  ((48 <=? nat_of_ascii c) && (nat_of_ascii c <=? 57))%nat.

(** The number a string of digits stands for. *)
Definition number (ds : string) : N :=
  fold_left (fun n c => (10 * n + (N_of_ascii c - 48))%N) (list_ascii_of_string ds) 0%N.

(** [s] cut at its first [c] *)
Fixpoint cut (c : ascii) (s : string) : option (string * string) :=
  match s with
  | EmptyString => None
  | String d r =>
      if Ascii.eqb c d then Some (EmptyString, r)
      else match cut c r with
           | Some (a, b) => Some (String d a, b)
           | None => None
           end
  end.

Fixpoint init_last (c : ascii) (s : string) : string * ascii :=
  match s with
  | EmptyString => (EmptyString, c)
  | String d r => let '(a, l) := init_last d r in (String c a, l)
  end.

Definition MAXREPEAT : N := 4294967295.

(** A plain ASCII text followed by a repetition count [{n}]: the last
    character [n] times over, or, for a count of [MAXREPEAT] and more, the
    [OverflowError] of the compiler. *)
Definition repetition (p : string) : option (res regex) :=
  match cut "{" p with
  | Some (String c pre, rest) =>
      match cut "}" rest with
      | Some (String d ds, EmptyString) =>
          if forallb is_plain (list_ascii_of_string (String c pre))
             && forallb is_digit (list_ascii_of_string (String d ds))
          then
            let n := number (String d ds) in
            if (MAXREPEAT <=? n)%N then Some (Raise OverflowError)
            else
              let '(a, l) := init_last c pre in
              Some (Ret (Literal (a +:+ string_of_list_ascii (repeat l (N.to_nat n)))))
          else None
      | _ => None
      end
  | _ => None
  end.

(** Ordinary characters and at least one opening parenthesis, which
    nothing closes. *)
Definition unclosed (p : string) : bool :=
  forallb (fun c => negb (is_special c) || Ascii.eqb c "(") (list_ascii_of_string p).

(** A text without special characters is a literal pattern.  Of the others,
    [\s+\n] and a repetition count are read, and a group left open is
    turned down with [re.error]. *)
Definition re_compile (p : string) : res regex :=
  if String.eqb p "\s+\n" then Ret SpaceBeforeLF
  else if existsb is_special (list_ascii_of_string p) then
    match repetition p with
    | Some r => r
    | None => if unclosed p then Raise re_error else Raise unsupported
    end
  else Ret (Literal p).

Definition pattern_sub (p : regex) (repl s : string) : string :=
  match p with
  | Literal old => replace s old repl
  | SpaceBeforeLF => collapse_from repl EmptyString s
  end.

(** A page without markup: ASCII, and neither [<] nor [&]. *)
Definition is_text (c : ascii) : bool :=
  ((nat_of_ascii c <? 128)%nat && negb (has_char c "<&")).

Definition BeautifulSoup (html : string) : res string :=
  if forallb is_text (list_ascii_of_string html) then Ret html
  else Raise unsupported.

Definition selector_start (c : ascii) : bool :=
  let n := nat_of_ascii c in
  ((65 <=? n) && (n <=? 90) || (97 <=? n) && (n <=? 122) || (n =? 95))%nat.

Definition selector_char (c : ascii) : bool :=
  let n := nat_of_ascii c in
  (selector_start c || (48 <=? n) && (n <=? 57) || (n =? 45))%nat.

(** An element name (a letter or [_], then letters, digits, [-] and [_])
    is a well formed selector, and selects nothing in a page without
    markup. *)
Definition select_one (page selector : string) : res (option string) :=
  match selector with
  | String c r =>
      if selector_start c && forallb selector_char (list_ascii_of_string r)
      then Ret None
      else Raise unsupported
  | EmptyString => Raise unsupported
  end.

Local Open Scope Z_scope.

Definition two_digits (n : Z) : string :=
  String (ascii_of_nat (48 + Z.to_nat (n / 10 mod 10)))
    (String (ascii_of_nat (48 + Z.to_nat (n mod 10))) EmptyString).

Definition four_digits (n : Z) : string :=
  two_digits (n / 100) +:+ two_digits n.

(** Year, month and day of the proleptic Gregorian calendar for a number
    of days since 1970-01-01. *)
Definition civil (days : Z) : Z * Z * Z :=
  let z := days + 719468 in
  let era := z / 146097 in
  let doe := z - era * 146097 in
  let yoe := (doe - doe / 1460 + doe / 36524 - doe / 146096) / 365 in
  let doy := doe - (365 * yoe + yoe / 4 - yoe / 100) in
  let mp := (5 * doy + 2) / 153 in
  let d := doy - (153 * mp + 2) / 5 + 1 in
  let m := if mp <? 10 then mp + 3 else mp - 9 in
  let y := yoe + era * 400 + (if m <=? 2 then 1 else 0) in
  (y, m, d).

Definition directive (c : ascii) (t : Z) : string :=
  let '(y, m, d) := civil (t / 86400) in
  let s := t mod 86400 in
  if Ascii.eqb c "Y" then four_digits y
  else if Ascii.eqb c "m" then two_digits m
  else if Ascii.eqb c "d" then two_digits d
  else if Ascii.eqb c "H" then two_digits (s / 3600)
  else if Ascii.eqb c "M" then two_digits (s / 60 mod 60)
  else if Ascii.eqb c "S" then two_digits (s mod 60)
  else if Ascii.eqb c "Z" then "UTC"
  else String "%" (String c EmptyString).

(** [time.strftime(fmt, time.localtime(t))] on a host whose zone is UTC,
    for the directives the program uses. *)
Fixpoint strftime (fmt : string) (t : Z) : string :=
  match fmt with
  | String "%" (String c r) => directive c t +:+ strftime r t
  | String c r => String c (strftime r t)
  | EmptyString => EmptyString
  end.

End Plain.

(** The libraries on pages of plain ASCII text, on a host in UTC. *)
Definition plain_library : Library :=
  {| sha256_hexdigest := SHA256.hexdigest;
     unified_diff := Difflib.unified_diff;
     pattern := Plain.regex;
     re_compile := Plain.re_compile;
     space_before_newline := Plain.SpaceBeforeLF;
     pattern_sub := Plain.pattern_sub;
     tag := string;
     BeautifulSoup := Plain.BeautifulSoup;
     select_one := Plain.select_one;
     get_text := Plain.strip;
     strip := Plain.strip;
     strftime := Plain.strftime |}.

(** * Scenarios

    Concrete configurations, servers and stored states on which the
    properties below are exercised. *)

Module Scenario.

Definition cfg : config :=
  {| TARGET_URL := Some "https://example.com";
     CSS_SELECTOR := "";
     IGNORE_REGEX := "";
     USER_AGENT := "ChangeWatcher/1.2 (+github actions)";
     NTFY_SERVER := "https://ntfy.sh";
     NTFY_TOPIC := "m2";
     NOTIFY_TEMPLATE := "";
     NOTIFY_PREFIX := "🔔 Änderung erkannt";
     NOTIFY_TITLE := None |}.

Definition no_headers : string -> option string := fun _ => None.

Definition with_etag (etag : string) : string -> option string :=
  fun h => if String.eqb h "ETag" then Some etag else None.

Definition accepted : response :=
  {| status_code := 200; headers := no_headers; text := "" |}.

(** A server with one version of the page: it answers 304 to a request
    that carries the version's tag, and sends the page otherwise. *)
Definition server (etag body : string) (rq : request) : outcome :=
  if bool_decide (req_headers rq !! "If-None-Match" = Some (VStr etag))
  then Answer {| status_code := 304; headers := no_headers; text := "" |}
  else Answer {| status_code := 200; headers := with_etag etag; text := body |}.

(** A server in trouble. *)
Definition broken (rq : request) : outcome :=
  Answer {| status_code := 500; headers := with_etag "v2"; text := "Internal Server Error" |}.

(** 2024-01-01 00:00:00 UTC, one second later at each reading. *)
Definition seconds (n : nat) : Z := (1704067200 + Z.of_nat n)%Z.

Definition env_of (get : request -> outcome) : environment :=
  {| http_get := get; http_post := fun _ => Answer accepted; clock := seconds |}.

(** The same surroundings with the notification endpoint out of reach. *)
Definition offline_ntfy (env : environment) : environment :=
  with_post env (fun _ => Failure).

Definition first_run : world :=
  {| state_file := None; ticks := 0; trace := [] |}.

(** The state after an earlier run that saw the text [content] under tag
    [etag] at time [t]. *)
Definition stored (content etag : string) (t : Z) : gmap string value :=
  <["last_ok_run" := VInt t]> (<["last_modified" := VNone]> (<["etag" := VStr etag]>
  (<["updated_at" := VInt t]> (<["last_excerpt" := VStr (excerpt content)]>
  (<["last_hash" := VStr (SHA256.hexdigest content)]> ∅))))).

Definition later_run (st : gmap string value) : world :=
  {| state_file := Some st; ticks := 0; trace := [] |}.

(** A text of 401 lines, "row 1" to "row 401". *)
Definition long_text : string :=
  join nl (map (fun i => "row " +:+ Difflib.decimal i) (seq 1 401)).

End Scenario.

(** * Vocabulary of the properties

    Names for the worlds, requests and dictionaries the statements below
    speak about. *)

(** The world after the GET request of a run has gone out. *)
Definition after_get (rq : request) (w : world) : world :=
  {| state_file := state_file w; ticks := ticks w; trace := trace w ++ [Http rq] |}.

Definition fetch_request {lib : Library} (cfg : config) (url : string) (etag lm : value) : request :=
  mkRequest GET url (conditional_headers cfg etag lm) "" 30.


Definition is_write (e : event) : bool :=
  match e with Write _ => true | Http _ => false end.

(** The POST request [send_ntfy] issues. *)
Definition ntfy_request (cfg : config) (title text : string) : request :=
  mkRequest POST (NTFY_SERVER cfg +:+ "/" +:+ NTFY_TOPIC cfg)
    (<["Priority" := VStr "4"]> (<["Tags" := VStr "bell"]> (<["Title" := VStr title]> ∅)))
    text 20.

(** The requests a call of [send_ntfy] adds to the trace. *)
Definition ntfy_events (cfg : config) (title text : string) : list event :=
  if nonempty (NTFY_TOPIC cfg) then [Http (ntfy_request cfg title text)] else [].

(** The stored excerpt as [main] reads it; [None] when the entry is no [str]. *)
Definition stored_excerpt (st : gmap string value) : option string :=
  match st !! "last_excerpt" with
  | None => Some ""
  | Some (VStr s) => Some s
  | Some _ => None
  end.

(** The dictionary written at the end of a run that read [st]. *)
Definition bookkeeping (st : gmap string value) (etag lm : value) (t : Z)
  : gmap string value :=
  <["last_ok_run" := VInt t]> (<["last_modified" := lm]> (<["etag" := etag]> st)).

Definition record_change (st : gmap string value) (hash exc : string) (t : Z)
  : gmap string value :=
  <["updated_at" := VInt t]> (<["last_excerpt" := VStr exc]> (<["last_hash" := VStr hash]> st)).

Definition written (st : gmap string value) (n : nat) (es : list event) (w : world) : world :=
  {| state_file := Some st; ticks := n + ticks w; trace := trace w ++ es ++ [Write st] |}.

(** Whether a run that read [st] and fetched [content] records a change. *)
Definition change_detected {lib : Library} (st : gmap string value)
  (content : option string) (not_modified : bool) : bool :=
  negb not_modified &&
  match content with
  | Some c => negb (bool_decide (VStr (sha256 c) = dict_get st "last_hash"))
  | None => false
  end.

(** A string without a line feed. *)
Definition single_line (l : string) : Prop := has_char "010" l = false.

(** A template is a sequence of pieces: plain text and the placeholders. *)
Inductive piece : Type :=
| Text (s : string)
| Url
| Time
| Diff.

(** A string without an opening brace. *)
Definition no_brace (s : string) : Prop := has_char "{" s = false.

Definition plain_text (p : piece) : Prop :=
  match p with Text s => no_brace s | _ => True end.

(** A piece as it is written in the template. *)
Definition source (p : piece) : string :=
  match p with
  | Text s => s
  | Url => "{URL}"
  | Time => "{TIME}"
  | Diff => "{DIFF}"
  end.

(** A piece once the values are filled in. *)
Definition fill (url now diff : string) (p : piece) : string :=
  match p with
  | Text s => s
  | Url => url
  | Time => now
  | Diff => diff
  end.

Definition render (f : piece -> string) (ps : list piece) : string :=
  String.concat "" (map f ps).

(** In front of any text, one pass of [replace] turns [s] into [s'] and goes
    on behind it. *)
Definition rewrites (old new s s' : string) : Prop :=
  forall t, replace_from old new 0 (s +:+ t) = s' +:+ replace_from old new 0 t.

(** No boundary starts inside [l], even when a line feed follows it. *)
Fixpoint quiet (l : string) : Prop :=
  match l with
  | EmptyString => True
  | String c v => boundary_len (String c (v +:+ nl)) = 0 /\ quiet v
  end.

Definition first_line (ls : list string) : string :=
  match ls with
  | [] => EmptyString
  | l :: _ => l
  end.

(** * The rest of the program: configuration and the shape of a run *)

(** [s.rstrip(c)] for a single character [c] *)
Fixpoint rstrip_char (c : ascii) (s : string) : string :=
  match s with
  | EmptyString => EmptyString
  | String d r =>
      match rstrip_char c r with
      | EmptyString => if Ascii.eqb c d then EmptyString else String d EmptyString
      | String _ _ as r' => String d r'
      end
  end.

(** The module-level assignments: each setting is read from the process
    environment [getenv], with its default and its trimming. *)
Definition configure {lib : Library} (getenv : string -> option string) : config :=
  {| TARGET_URL := getenv "TARGET_URL";
     CSS_SELECTOR := strip (default "" (getenv "CSS_SELECTOR"));
     IGNORE_REGEX := strip (default "" (getenv "IGNORE_REGEX"));
     USER_AGENT := default "ChangeWatcher/1.2 (+github actions)" (getenv "USER_AGENT");
     NTFY_SERVER := rstrip_char "/" (default "https://ntfy.sh" (getenv "NTFY_SERVER"));
     NTFY_TOPIC := strip (default "" (getenv "NTFY_TOPIC"));
     NOTIFY_TEMPLATE := default "" (getenv "NOTIFY_TEMPLATE");
     NOTIFY_PREFIX := default "🔔 Änderung erkannt" (getenv "NOTIFY_PREFIX");
     NOTIFY_TITLE := getenv "NOTIFY_TITLE" |}.

Definition without_css_selector (cfg : config) : config :=
  {| TARGET_URL := TARGET_URL cfg; CSS_SELECTOR := "";
     IGNORE_REGEX := IGNORE_REGEX cfg; USER_AGENT := USER_AGENT cfg;
     NTFY_SERVER := NTFY_SERVER cfg; NTFY_TOPIC := NTFY_TOPIC cfg;
     NOTIFY_TEMPLATE := NOTIFY_TEMPLATE cfg; NOTIFY_PREFIX := NOTIFY_PREFIX cfg;
     NOTIFY_TITLE := NOTIFY_TITLE cfg |}.

(** The surroundings in which every GET request is answered with [r]. *)
Definition answering (env : environment) (r : response) : environment :=
  {| http_get := fun _ => Answer r; http_post := http_post env; clock := clock env |}.

(** The answer [r] sent under the status [s]. *)
Definition with_status (r : response) (s : Z) : response :=
  {| status_code := s; headers := headers r; text := text r |}.

(** [s.endswith(c)] for a single character [c] *)
Fixpoint ends_with_char (c : ascii) (s : string) : bool :=
  match s with
  | EmptyString => false
  | String d EmptyString => Ascii.eqb c d
  | String _ r => ends_with_char c r
  end.

(** [c * n] *)
Fixpoint repeat_char (c : ascii) (n : nat) : string :=
  match n with
  | O => EmptyString
  | S k => String c (repeat_char c k)
  end.

Definition is_get (e : event) : bool :=
  match e with Http r => match req_method r with GET => true | POST => false end | _ => false end.

Definition is_post (e : event) : bool :=
  match e with Http r => match req_method r with POST => true | GET => false end | _ => false end.

(** The events a run adds to the trace. *)
Definition new_events (w w' : world) : list event :=
  skipn (length (trace w)) (trace w').

(** The effects of a run come in this order: the GET request, then at most
    one POST request, then at most one write. *)
Definition well_ordered (es : list event) : bool :=
  match es with
  | [] => true
  | [g] => is_get g
  | [g; x] => is_get g && is_write x
  | [g; p; x] => is_get g && is_post p && is_write x
  | _ => false
  end.

(** The six entries the program maintains. *)
Definition managed_keys : list string :=
  ["last_hash"; "last_excerpt"; "updated_at"; "etag"; "last_modified"; "last_ok_run"].

(** The stored fingerprint and excerpt belong to one text, or there is no
    fingerprint yet. *)
Definition coherent {lib : Library} (st : gmap string value) : Prop :=
  dict_get st "last_hash" = VNone \/
  exists c, st !! "last_hash" = Some (VStr (sha256 c)) /\
            st !! "last_excerpt" = Some (VStr (excerpt c)).

(** The stored times are in order at time [now]: the last change is not
    later than the last run, which is not later than [now]. *)
Definition in_order (st : gmap string value) (now : Z) : Prop :=
  match dict_get st "updated_at", dict_get st "last_ok_run" with
  | VInt u, VInt t => (u <= t <= now)%Z
  | VNone, VInt t => (t <= now)%Z
  | VNone, VNone => True
  | _, _ => False
  end.

(** Every run takes one of six paths. *)
Inductive path {lib : Library} (cfg : config) (env : environment) (w : world)
  : res unit * world -> Prop :=
| NoTarget msg :
    TARGET_URL cfg = None \/ TARGET_URL cfg = Some "" ->
    path cfg env w (Raise (AssertionError msg), w)
| FetchFailed target e :
    TARGET_URL cfg = Some target -> nonempty target = true ->
    path cfg env w
      (Raise e, after_get (fetch_request cfg target (dict_get (loaded w) "etag")
                             (dict_get (loaded w) "last_modified")) w)
| NotModified target :
    TARGET_URL cfg = Some target -> nonempty target = true ->
    let w1 := after_get (fetch_request cfg target (dict_get (loaded w) "etag")
                           (dict_get (loaded w) "last_modified")) w in
    path cfg env w
      (Ret tt, written (<["last_ok_run" := VInt (clock env (ticks w1))]> (loaded w)) 1 [] w1)
| Unchanged target content etag lm :
    TARGET_URL cfg = Some target -> nonempty target = true ->
    let w1 := after_get (fetch_request cfg target (dict_get (loaded w) "etag")
                           (dict_get (loaded w) "last_modified")) w in
    fetch_content cfg env target (dict_get (loaded w) "etag")
      (dict_get (loaded w) "last_modified") w = (Ret (Some content, etag, lm, false), w1) ->
    VStr (sha256 content) = dict_get (loaded w) "last_hash" ->
    path cfg env w
      (Ret tt, written (bookkeeping (loaded w) etag lm (clock env (ticks w1))) 1 [] w1)
| Changed target content old etag lm :
    TARGET_URL cfg = Some target -> nonempty target = true ->
    let w1 := after_get (fetch_request cfg target (dict_get (loaded w) "etag")
                           (dict_get (loaded w) "last_modified")) w in
    fetch_content cfg env target (dict_get (loaded w) "etag")
      (dict_get (loaded w) "last_modified") w = (Ret (Some content, etag, lm, false), w1) ->
    VStr (sha256 content) <> dict_get (loaded w) "last_hash" ->
    stored_excerpt (loaded w) = Some old ->
    path cfg env w
      (Ret tt,
       written (bookkeeping
                  (record_change (loaded w) (sha256 content) (excerpt content)
                     (clock env (1 + ticks w1)))
                  etag lm (clock env (2 + ticks w1)))
         3 (ntfy_events cfg (default "Ergebnis M2" (NOTIFY_TITLE cfg))
              (message_text cfg (strftime time_format (clock env (ticks w1))) target
                 (pretty_diff old content))) w1)
| BadExcerpt target content etag lm :
    TARGET_URL cfg = Some target -> nonempty target = true ->
    let w1 := after_get (fetch_request cfg target (dict_get (loaded w) "etag")
                           (dict_get (loaded w) "last_modified")) w in
    fetch_content cfg env target (dict_get (loaded w) "etag")
      (dict_get (loaded w) "last_modified") w = (Ret (Some content, etag, lm, false), w1) ->
    VStr (sha256 content) <> dict_get (loaded w) "last_hash" ->
    stored_excerpt (loaded w) = None ->
    path cfg env w (Raise AttributeError, w1).

(** * Properties *)

(** ** Running the monad *)

Lemma bind_ret_eq {A B} (m : M A) (k : A -> M B) w a w1 :
  m w = (Ret a, w1) -> bind m k w = k a w1.
Proof. intros E. unfold bind. now rewrite E. Qed.

Lemma bind_raise_eq {A B} (m : M A) (k : A -> M B) w e w1 :
  m w = (Raise e, w1) -> bind m k w = (Raise e, w1).
Proof. intros E. unfold bind. now rewrite E. Qed.

Lemma bind_inv_ret {A B} (m : M A) (k : A -> M B) w b w' :
  bind m k w = (Ret b, w') ->
  exists a w1, m w = (Ret a, w1) /\ k a w1 = (Ret b, w').
Proof.
  unfold bind. destruct (m w) as [[a|e] w1]; intros E; [eauto | discriminate].
Qed.

(** The paths through [fetch_content], each handed to [tac]. *)
Ltac fetch_paths cfg env tac :=
  unfold fetch_content, requests_get, raise_for_status, re_sub, try_except,
    lift, bind, log, ret, raise;
  cbv beta zeta;
  destruct (http_get env _) as [?resp|]; [|tac];
  destruct (status_code _ =? 304)%Z; [tac|];
  destruct (_ && _); [tac|];
  destruct (BeautifulSoup _) as [?soup|?e]; [|tac];
  (destruct (nonempty (CSS_SELECTOR cfg));
   [destruct (select_one _ _) as [[?node|]|?e]; [| |tac]|]);
  (destruct (nonempty (IGNORE_REGEX cfg));
   [destruct (re_compile (IGNORE_REGEX cfg)) as [?p|[]]|]);
  tac.

Section FetchFacts.

Context {lib : Library} (cfg : config) (env : environment).

(** [fetch_content] sends one GET request and touches nothing else. *)
Lemma fetch_content_world url etag lm w r w1 :
  fetch_content cfg env url etag lm w = (r, w1) ->
  w1 = after_get (fetch_request cfg url etag lm) w.
Proof.
  unfold fetch_request, after_get.
  fetch_paths cfg env ltac:(now inversion 1).
Qed.


Lemma fetch_content_http_error url etag lm w r :
  http_get env (fetch_request cfg url etag lm) = Answer r ->
  (400 <= status_code r < 600)%Z ->
  fetch_content cfg env url etag lm w =
    (Raise (HTTPError (status_code r)), after_get (fetch_request cfg url etag lm) w).
Proof.
  intros E Hs. unfold fetch_content, requests_get, raise_for_status, bind, log, ret.
  unfold fetch_request in E. rewrite E.
  replace (status_code r =? 304)%Z with false by lia.
  replace ((400 <=? status_code r) && (status_code r <? 600))%Z with true by lia.
  reflexivity.
Qed.

(** When [fetch_content] raises, so does [main], in the same world. *)
Lemma main_fetch_raises target w e w1 :
  TARGET_URL cfg = Some target -> nonempty target = true ->
  fetch_content cfg env target (dict_get (loaded w) "etag")
    (dict_get (loaded w) "last_modified") w = (Raise e, w1) ->
  main cfg env w = (Raise e, w1).
Proof.
  intros Ht Hn E. unfold main. rewrite Ht, Hn. simpl.
  unfold bind at 1. unfold load_state at 1.
  now rewrite (bind_raise_eq _ _ _ _ _ E).
Qed.

End FetchFacts.

(** ** The paths of [main] *)

Section Paths.

Context {lib : Library} (cfg : config) (env : environment).

Lemma send_ntfy_run title text w :
  send_ntfy cfg env title text w =
    (Ret tt, {| state_file := state_file w; ticks := ticks w;
                trace := trace w ++ ntfy_events cfg title text |}).
Proof.
  unfold send_ntfy, ntfy_events, ntfy_request.
  destruct (nonempty (NTFY_TOPIC cfg)); simpl.
  - unfold try_except, requests_post, bind, log, ret, raise.
    now destruct (http_post env _).
  - unfold ret. rewrite app_nil_r. now destruct w.
Qed.

Variables (target : string) (w w1 : world) (etag lm : value).
Hypothesis Htarget : TARGET_URL cfg = Some target.
Hypothesis Hnonempty : nonempty target = true.

Let st := loaded w.
Let fetched := fetch_content cfg env target (dict_get st "etag") (dict_get st "last_modified") w.

(** Path 1: the server answers 304. *)
Lemma main_not_modified content :
  fetched = (Ret (content, etag, lm, true), w1) ->
  main cfg env w =
    (Ret tt, written (<["last_ok_run" := VInt (clock env (ticks w1))]> st) 1 [] w1).
Proof.
  intros E. unfold main. rewrite Htarget, Hnonempty. simpl.
  unfold bind at 1. unfold load_state at 1.
  rewrite (bind_ret_eq _ _ _ _ _ E). reflexivity.
Qed.

(** Path 2: new content with the stored fingerprint. *)
Lemma main_same_hash content :
  fetched = (Ret (Some content, etag, lm, false), w1) ->
  VStr (sha256 content) = dict_get st "last_hash" ->
  main cfg env w =
    (Ret tt, written (bookkeeping st etag lm (clock env (ticks w1))) 1 [] w1).
Proof.
  intros E Hh. unfold main. rewrite Htarget, Hnonempty. simpl.
  unfold bind at 1. unfold load_state at 1.
  rewrite (bind_ret_eq _ _ _ _ _ E).
  unfold bind at 1. unfold ret at 1.
  fold st. rewrite bool_decide_eq_true_2 by exact Hh. reflexivity.
Qed.

(** Path 3: new content with another fingerprint. *)
Lemma main_changed content old :
  fetched = (Ret (Some content, etag, lm, false), w1) ->
  VStr (sha256 content) <> dict_get st "last_hash" ->
  stored_excerpt st = Some old ->
  let n := ticks w1 in
  let msg := message_text cfg (strftime time_format (clock env n)) target
               (pretty_diff old content) in
  main cfg env w =
    (Ret tt,
     written (bookkeeping
                (record_change st (sha256 content) (excerpt content) (clock env (1 + n)))
                etag lm (clock env (2 + n)))
       3 (ntfy_events cfg (default "Ergebnis M2" (NOTIFY_TITLE cfg)) msg) w1).
Proof.
  intros E Hh Ho. unfold main. rewrite Htarget, Hnonempty. simpl.
  unfold bind at 1. unfold load_state at 1.
  rewrite (bind_ret_eq _ _ _ _ _ E).
  unfold bind at 1. unfold ret at 1.
  fold st. rewrite bool_decide_eq_false_2 by exact Hh. simpl.
  unfold stored_excerpt in Ho.
  unfold bind, build_message, time_time, ret, written, bookkeeping, record_change.
  destruct (st !! "last_excerpt") as [[]|] eqn:El; inversion Ho; subst; simpl;
    rewrite send_ntfy_run; unfold save_state; simpl; rewrite <- app_assoc; reflexivity.
Qed.

End Paths.

(** ** Failed fetches *)




(** C6 (as the program behaves): when the server answers with a status that
    [raise_for_status] rejects, [main] raises the HTTP error, no entry of the
    stored dictionary changes (neither the fingerprint and the excerpt nor
    [etag], [last_modified] and [last_ok_run]) and nothing is written: the
    bookkeeping of the run is not carried out. *)
Theorem C6_http_error_aborts_without_bookkeeping
  {lib : Library} (cfg : config) (env : environment) (w : world) (target : string)
  (r : response) :
  TARGET_URL cfg = Some target -> nonempty target = true ->
  let rq := fetch_request cfg target (dict_get (loaded w) "etag")
              (dict_get (loaded w) "last_modified") in
  http_get env rq = Answer r ->
  (400 <= status_code r < 600)%Z ->
  exists w', main cfg env w = (Raise (HTTPError (status_code r)), w') /\
             (forall k, loaded w' !! k = loaded w !! k) /\
             existsb is_write (skipn (length (trace w)) (trace w')) = false.
Proof.
  intros Ht Hn rq E Hs. exists (after_get rq w). split; [|split].
  - apply main_fetch_raises with (target := target); auto.
    now apply fetch_content_http_error.
  - reflexivity.
  - simpl. rewrite skipn_app, skipn_all, Nat.sub_diag. reflexivity.
Qed.

Lemma C6_witness :
  let w := Scenario.later_run (Scenario.stored "old text" "v1" 1700000000) in
  exists w',
    main (lib := plain_library) Scenario.cfg (Scenario.env_of Scenario.broken) w
      = (Raise (HTTPError 500), w') /\
    (forall k, loaded w' !! k = loaded w !! k) /\
    existsb is_write (skipn (length (trace w)) (trace w')) = false.
Proof.
  intros w.
  apply (C6_http_error_aborts_without_bookkeeping (lib := plain_library)
           Scenario.cfg (Scenario.env_of Scenario.broken) w "https://example.com"
           {| status_code := 500; headers := Scenario.with_etag "v2";
              text := "Internal Server Error" |}).
  - reflexivity.
  - reflexivity.
  - reflexivity.
  - simpl. lia.
Defined.

(** C6 as stated fails: the server answers 500 with a new tag at a later
    time, and after the run the stored [last_ok_run] and [etag] are still
    those of the earlier run; the run has written nothing. *)
Lemma C6_counterexample :
  let w := Scenario.later_run (Scenario.stored "old text" "v1" 1700000000) in
  let run := main (lib := plain_library) Scenario.cfg (Scenario.env_of Scenario.broken) w in
  fst run = Raise (HTTPError 500) /\
  dict_get (loaded (snd run)) "last_ok_run" = VInt 1700000000 /\
  dict_get (loaded (snd run)) "etag" = VStr "v1" /\
  existsb is_write (trace (snd run)) = false.
Proof. vm_compute. repeat split. Qed.

(** ** Successful runs *)

Section FetchResults.

Context {lib : Library} (cfg : config) (env : environment).

(** "Not modified" comes with no content and with the validators sent. *)
Lemma fetch_content_not_modified url etag lm w c e l w1 :
  fetch_content cfg env url etag lm w = (Ret (c, e, l, true), w1) ->
  c = None /\ e = etag /\ l = lm.
Proof.
  fetch_paths cfg env ltac:(now inversion 1).
Qed.

(** Any other result carries the text of the page. *)
Lemma fetch_content_modified url etag lm w c e l w1 :
  fetch_content cfg env url etag lm w = (Ret (c, e, l, false), w1) ->
  exists s, c = Some s.
Proof.
  fetch_paths cfg env ltac:(inversion 1; eauto).
Qed.

(** A stored excerpt that is no [str] stops a run that detects a change. *)
Lemma main_bad_excerpt target w w1 content etag lm :
  TARGET_URL cfg = Some target -> nonempty target = true ->
  fetch_content cfg env target (dict_get (loaded w) "etag")
    (dict_get (loaded w) "last_modified") w
    = (Ret (Some content, etag, lm, false), w1) ->
  VStr (sha256 content) <> dict_get (loaded w) "last_hash" ->
  stored_excerpt (loaded w) = None ->
  main cfg env w = (Raise AttributeError, w1).
Proof.
  intros Ht Hn E Hh Ho. unfold main. rewrite Ht, Hn. simpl.
  unfold bind at 1. unfold load_state at 1.
  rewrite (bind_ret_eq _ _ _ _ _ E).
  unfold bind at 1. unfold ret at 1.
  rewrite bool_decide_eq_false_2 by exact Hh. simpl.
  unfold stored_excerpt in Ho. unfold bind, raise.
  destruct (loaded w !! "last_excerpt") as [[]|]; now try discriminate.
Qed.

End FetchResults.

Lemma dict_get_insert_eq (d : gmap string value) k v :
  dict_get (<[k := v]> d) k = v.
Proof. unfold dict_get. now rewrite lookup_insert_eq. Qed.

Lemma dict_get_insert_ne (d : gmap string value) k k' v :
  k <> k' -> dict_get (<[k := v]> d) k' = dict_get d k'.
Proof. intros. unfold dict_get. now rewrite lookup_insert_ne. Qed.

(** C2: a run that completes has written a dictionary in which [etag] and
    [last_modified] are the validators the fetch returned and [last_ok_run]
    is the last reading of the clock; unless a change was detected, its
    [last_hash], [last_excerpt] and [updated_at] are those the run started
    from, in particular after a 304 answer. *)
Theorem C2_bookkeeping_always_snapshot_only_on_change
  {lib : Library} (cfg : config) (env : environment) (w w' : world) :
  main cfg env w = (Ret tt, w') ->
  let st := loaded w in
  exists target content etag lm not_modified w1 st',
    TARGET_URL cfg = Some target /\
    fetch_content cfg env target (dict_get st "etag") (dict_get st "last_modified") w
      = (Ret (content, etag, lm, not_modified), w1) /\
    state_file w' = Some st' /\
    dict_get st' "etag" = etag /\
    dict_get st' "last_modified" = lm /\
    st' !! "last_ok_run" = Some (VInt (clock env (Nat.pred (ticks w')))) /\
    (change_detected st content not_modified = false ->
     st' !! "last_hash" = st !! "last_hash" /\
     st' !! "last_excerpt" = st !! "last_excerpt" /\
     st' !! "updated_at" = st !! "updated_at") /\
    (not_modified = true -> change_detected st content not_modified = false).
Proof.
  intros Hm st.
  destruct (TARGET_URL cfg) as [target|] eqn:Ht;
    [|unfold main in Hm; rewrite Ht in Hm; discriminate].
  destruct (nonempty target) eqn:Hn;
    [|unfold main in Hm; rewrite Ht, Hn in Hm; discriminate].
  destruct (fetch_content cfg env target (dict_get st "etag")
              (dict_get st "last_modified") w)
    as [[[[[c e] l] nm]|ex] w1] eqn:E.
  2: { rewrite (main_fetch_raises cfg env target w ex w1 Ht Hn E) in Hm. discriminate. }
  exists target, c, e, l, nm, w1.
  destruct nm.
  - rewrite (main_not_modified cfg env target w w1 e l Ht Hn c E) in Hm.
    inversion Hm; subst w'; clear Hm.
    destruct (fetch_content_not_modified _ _ _ _ _ _ _ _ _ _ E) as (-> & -> & ->).
    eexists. split; [reflexivity|]. split; [exact E|]. split; [reflexivity|].
    fold st. repeat split; simpl.
    + now rewrite dict_get_insert_ne.
    + now rewrite dict_get_insert_ne.
    + now rewrite lookup_insert_eq.
    + now rewrite lookup_insert_ne.
    + now rewrite lookup_insert_ne.
    + now rewrite lookup_insert_ne.
  - destruct (fetch_content_modified _ _ _ _ _ _ _ _ _ _ E) as [s ->].
    destruct (decide (VStr (sha256 s) = dict_get st "last_hash")) as [Hh|Hh].
    + rewrite (main_same_hash cfg env target w w1 e l Ht Hn s E Hh) in Hm.
      inversion Hm; subst w'; clear Hm. unfold bookkeeping.
      eexists. split; [reflexivity|]. split; [exact E|]. split; [reflexivity|].
      fold st. repeat split; simpl.
      * rewrite dict_get_insert_ne, dict_get_insert_ne, dict_get_insert_eq; done.
      * rewrite dict_get_insert_ne, dict_get_insert_eq; done.
      * now rewrite lookup_insert_eq.
      * now rewrite !lookup_insert_ne.
      * now rewrite !lookup_insert_ne.
      * now rewrite !lookup_insert_ne.
      * discriminate.
    + assert (Hc : change_detected st (Some s) false = true).
      { unfold change_detected. simpl. now rewrite bool_decide_eq_false_2. }
      destruct (stored_excerpt st) as [old|] eqn:Ho.
      * rewrite (main_changed cfg env target w w1 e l Ht Hn s old E Hh Ho) in Hm.
        inversion Hm; subst w'; clear Hm. unfold bookkeeping, record_change.
        eexists. split; [reflexivity|]. split; [exact E|]. split; [reflexivity|].
        fold st. rewrite Hc. repeat split; simpl; try discriminate.
        -- rewrite dict_get_insert_ne, dict_get_insert_ne, dict_get_insert_eq; done.
        -- rewrite dict_get_insert_ne, dict_get_insert_eq; done.
        -- now rewrite lookup_insert_eq.
      * rewrite (main_bad_excerpt cfg env target w w1 s e l Ht Hn E Hh Ho) in Hm.
        discriminate.
Qed.

Lemma C2_witness :
  let w := Scenario.later_run (Scenario.stored "old text" "v1" 1700000000) in
  let env := Scenario.env_of (Scenario.server "v1" "old text") in
  let w' := snd (main (lib := plain_library) Scenario.cfg env w) in
  let st := loaded w in
  exists target content etag lm not_modified w1 st',
    TARGET_URL Scenario.cfg = Some target /\
    fetch_content (lib := plain_library) Scenario.cfg env target
      (dict_get st "etag") (dict_get st "last_modified") w
      = (Ret (content, etag, lm, not_modified), w1) /\
    state_file w' = Some st' /\
    dict_get st' "etag" = etag /\
    dict_get st' "last_modified" = lm /\
    st' !! "last_ok_run" = Some (VInt (clock env (Nat.pred (ticks w')))) /\
    (change_detected (lib := plain_library) st content not_modified = false ->
     st' !! "last_hash" = st !! "last_hash" /\
     st' !! "last_excerpt" = st !! "last_excerpt" /\
     st' !! "updated_at" = st !! "updated_at") /\
    (not_modified = true ->
     change_detected (lib := plain_library) st content not_modified = false).
Proof.
  intros w env w'.
  apply (C2_bookkeeping_always_snapshot_only_on_change (lib := plain_library)
           Scenario.cfg env w w').
  vm_compute. reflexivity.
Defined.

(** [main] depends on the configuration and the surroundings only through
    the target, the result of the fetch, the clock, the message and the
    notification request. *)
Lemma main_ext {lib : Library} (cfg cfg' : config) (env env' : environment) (w : world) :
  TARGET_URL cfg = TARGET_URL cfg' ->
  (forall url e l, fetch_content cfg env url e l w = fetch_content cfg' env' url e l w) ->
  (forall n, clock env n = clock env' n) ->
  (forall now url d, message_text cfg now url d = message_text cfg' now url d) ->
  (forall title text, ntfy_events cfg title text = ntfy_events cfg' title text) ->
  NOTIFY_TITLE cfg = NOTIFY_TITLE cfg' ->
  main cfg env w = main cfg' env' w.
Proof.
  intros Ht Hf Hc Hm Hn Hti.
  destruct (TARGET_URL cfg) as [target|] eqn:Et.
  2: { unfold main. now rewrite <- Ht, Et. }
  destruct (nonempty target) eqn:En.
  2: { unfold main. now rewrite <- Ht, Et, En. }
  symmetry in Ht.
  destruct (fetch_content cfg env target (dict_get (loaded w) "etag")
              (dict_get (loaded w) "last_modified") w)
    as [[[[[c e] l] nm]|ex] w1] eqn:E.
  2: { rewrite (main_fetch_raises cfg env target w ex w1 Et En E).
       rewrite Hf in E.
       now rewrite (main_fetch_raises cfg' env' target w ex w1 Ht En E). }
  assert (E' := E). rewrite Hf in E'.
  destruct nm.
  - rewrite (main_not_modified cfg env target w w1 e l Et En c E).
    rewrite (main_not_modified cfg' env' target w w1 e l Ht En c E').
    now rewrite Hc.
  - destruct (fetch_content_modified _ _ _ _ _ _ _ _ _ _ E) as [s ->].
    destruct (decide (VStr (sha256 s) = dict_get (loaded w) "last_hash")) as [Hh|Hh].
    + rewrite (main_same_hash cfg env target w w1 e l Et En s E Hh).
      rewrite (main_same_hash cfg' env' target w w1 e l Ht En s E' Hh).
      now rewrite Hc.
    + destruct (stored_excerpt (loaded w)) as [old|] eqn:Ho.
      * rewrite (main_changed cfg env target w w1 e l Et En s old E Hh Ho).
        rewrite (main_changed cfg' env' target w w1 e l Ht En s old E' Hh Ho).
        cbv zeta. now rewrite !Hc, Hm, Hn, Hti.
      * rewrite (main_bad_excerpt cfg env target w w1 s e l Et En E Hh Ho).
        now rewrite (main_bad_excerpt cfg' env' target w w1 s e l Ht En E' Hh Ho).
Qed.

(** C3: on a run that finds no stored fingerprint and fetches a text, whatever
    the text is, the message built from the diff is handed to [send_ntfy]
    (which posts it when a topic is configured), and the dictionary written
    holds the fingerprint of the text, its first 400 lines and the time of
    the change. *)
Theorem C3_first_run_records_and_notifies
  {lib : Library} (cfg : config) (env : environment) (w w1 : world)
  (target content old : string) (etag lm : value) :
  TARGET_URL cfg = Some target -> nonempty target = true ->
  let st := loaded w in
  dict_get st "last_hash" = VNone ->
  stored_excerpt st = Some old ->
  fetch_content cfg env target (dict_get st "etag") (dict_get st "last_modified") w
    = (Ret (Some content, etag, lm, false), w1) ->
  exists w' st',
    main cfg env w = (Ret tt, w') /\
    state_file w' = Some st' /\
    st' !! "last_hash" = Some (VStr (sha256 content)) /\
    st' !! "last_excerpt" = Some (VStr (join nl (take 400 (splitlines content)))) /\
    st' !! "updated_at" = Some (VInt (clock env (1 + ticks w1))) /\
    skipn (length (trace w1)) (trace w') =
      ntfy_events cfg (default "Ergebnis M2" (NOTIFY_TITLE cfg))
        (message_text cfg (strftime time_format (clock env (ticks w1))) target
           (pretty_diff old content))
      ++ [Write st'].
Proof.
  intros Ht Hn st Hh Ho E.
  assert (Hne : VStr (sha256 content) <> dict_get st "last_hash").
  { rewrite Hh. discriminate. }
  eexists. eexists.
  split; [exact (main_changed cfg env target w w1 etag lm Ht Hn content old E Hne Ho)|].
  unfold written, bookkeeping, record_change. simpl.
  split; [reflexivity|].
  split; [now rewrite 5!lookup_insert_ne, lookup_insert_eq by done|].
  split; [now rewrite 4!lookup_insert_ne, lookup_insert_eq by done|].
  split; [now rewrite 3!lookup_insert_ne, lookup_insert_eq by done|].
  now rewrite skipn_app, skipn_all, Nat.sub_diag.
Qed.

Lemma C3_witness :
  let env := Scenario.env_of (Scenario.server "v1" "") in
  let w := Scenario.first_run in
  let w1 := snd (fetch_content (lib := plain_library) Scenario.cfg env
                   "https://example.com" VNone VNone w) in
  exists w' st',
    main (lib := plain_library) Scenario.cfg env w = (Ret tt, w') /\
    state_file w' = Some st' /\
    st' !! "last_hash" = Some (VStr (sha256 (lib := plain_library) "")) /\
    st' !! "last_excerpt" = Some (VStr (join nl (take 400 (splitlines "")))) /\
    st' !! "updated_at" = Some (VInt (clock env (1 + ticks w1))) /\
    skipn (length (trace w1)) (trace w') =
      ntfy_events Scenario.cfg "Ergebnis M2"
        (message_text Scenario.cfg
           (strftime (Library := plain_library) time_format (clock env (ticks w1)))
           "https://example.com" (pretty_diff (lib := plain_library) "" ""))
      ++ [Write st'].
Proof.
  intros env w w1.
  apply (C3_first_run_records_and_notifies (lib := plain_library)
           Scenario.cfg env w w1 "https://example.com" "" "" (VStr "v1") VNone).
  - reflexivity.
  - reflexivity.
  - reflexivity.
  - reflexivity.
  - vm_compute. reflexivity.
Defined.

(** ** Notification failures *)

(** C5: [send_ntfy] returns normally and leaves [state.json] alone whatever
    the endpoint does; a run has the same result and leaves the same world,
    file included, under any two behaviours of the endpoint; and a run that
    detects a change writes the new fingerprint, excerpt, change time,
    validators and [last_ok_run], whatever the endpoint does. *)
Theorem C5_notification_failure_is_harmless
  {lib : Library} (cfg : config) (env : environment) (post : request -> outcome)
  (w : world) :
  (forall title text w0,
     exists w0', send_ntfy cfg (with_post env post) title text w0 = (Ret tt, w0') /\
                 state_file w0' = state_file w0) /\
  main cfg (with_post env post) w = main cfg env w /\
  (forall target content old etag lm w1,
     TARGET_URL cfg = Some target -> nonempty target = true ->
     fetch_content cfg env target (dict_get (loaded w) "etag")
       (dict_get (loaded w) "last_modified") w
       = (Ret (Some content, etag, lm, false), w1) ->
     VStr (sha256 content) <> dict_get (loaded w) "last_hash" ->
     stored_excerpt (loaded w) = Some old ->
     exists w' st',
       main cfg (with_post env post) w = (Ret tt, w') /\
       state_file w' = Some st' /\
       st' !! "last_hash" = Some (VStr (sha256 content)) /\
       st' !! "last_excerpt" = Some (VStr (excerpt content)) /\
       st' !! "updated_at" = Some (VInt (clock env (1 + ticks w1))) /\
       st' !! "etag" = Some etag /\
       st' !! "last_modified" = Some lm /\
       st' !! "last_ok_run" = Some (VInt (clock env (2 + ticks w1)))).
Proof.
  assert (Hmain : main cfg (with_post env post) w = main cfg env w).
  { apply main_ext; reflexivity. }
  split; [|split].
  - intros title text w0. rewrite send_ntfy_run. eexists. split; reflexivity.
  - exact Hmain.
  - intros target content old etag lm w1 Ht Hn E Hh Ho. rewrite Hmain.
    eexists. eexists.
    split; [exact (main_changed cfg env target w w1 etag lm Ht Hn content old E Hh Ho)|].
    unfold written, bookkeeping, record_change. simpl.
    split; [reflexivity|].
    split; [now rewrite 5!lookup_insert_ne, lookup_insert_eq by done|].
    split; [now rewrite 4!lookup_insert_ne, lookup_insert_eq by done|].
    split; [now rewrite 3!lookup_insert_ne, lookup_insert_eq by done|].
    split; [now rewrite 2!lookup_insert_ne, lookup_insert_eq by done|].
    split; [now rewrite lookup_insert_ne, lookup_insert_eq by done|].
    now rewrite lookup_insert_eq.
Qed.

(** ** Invalid ignore patterns *)


Lemma C5_witness :
  let env := Scenario.env_of (Scenario.server "v2" "new text") in
  let post : request -> outcome := fun _ => Failure in
  let w := Scenario.later_run (Scenario.stored "old text" "v1" 1700000000) in
  exists w' st',
    main (lib := plain_library) Scenario.cfg (with_post env post) w = (Ret tt, w') /\
    state_file w' = Some st' /\
    st' !! "last_hash" = Some (VStr (sha256 (lib := plain_library) "new text")) /\
    st' !! "last_excerpt" = Some (VStr (excerpt "new text")) /\
    st' !! "updated_at" = Some (VInt (clock env 1)) /\
    st' !! "etag" = Some (VStr "v2") /\
    st' !! "last_modified" = Some VNone /\
    st' !! "last_ok_run" = Some (VInt (clock env 2)).
Proof.
  intros env post w.
  destruct (C5_notification_failure_is_harmless (lib := plain_library)
              Scenario.cfg env post w) as (_ & _ & H).
  apply (H "https://example.com" "new text" (excerpt "old text") (VStr "v2") VNone
           (snd (fetch_content (lib := plain_library) Scenario.cfg env
                   "https://example.com" (VStr "v1") VNone w))).
  - reflexivity.
  - reflexivity.
  - vm_compute. reflexivity.
  - vm_compute. discriminate.
  - reflexivity.
Defined.



(** ** Lines *)

#[local] Arguments Ascii.eqb : simpl never.
#[local] Arguments ascii_dec : simpl never.

Lemma boundary_len_lf r : boundary_len (String "010" r) = 1.
Proof. reflexivity. Qed.

Lemma single_line_add_char c ls :
  c <> "010"%char -> Forall single_line ls -> Forall single_line (add_char c ls).
Proof.
  intros Hc Hls. unfold add_char.
  assert (Hcons : forall l, single_line l -> single_line (String c l)).
  { intros l Hl. unfold single_line in *. simpl. rewrite Hl.
    destruct (Ascii.eqb_spec "010"%char c); [congruence | reflexivity]. }
  destruct Hls as [|l t Hl Ht]; constructor; auto.
  apply (Hcons EmptyString). reflexivity.
Qed.

(** The lines [splitlines] returns hold no line feed. *)
Lemma splitlines_from_single_line s : forall skip,
  Forall single_line (splitlines_from skip s).
Proof.
  induction s as [|c r IH]; intros skip; simpl; [constructor|].
  destruct skip as [|k]; [|apply IH].
  destruct (boundary_len (String c r)) as [|k] eqn:B.
  - apply single_line_add_char; [|apply IH].
    intros ->. rewrite boundary_len_lf in B. discriminate.
  - constructor; [reflexivity | apply IH].
Qed.

Lemma splitlines_single_line s : Forall single_line (splitlines s).
Proof. apply splitlines_from_single_line. Qed.

Lemma count_nl_app s t : count_nl (s +:+ t) = count_nl s + count_nl t.
Proof. induction s as [|c s IH]; simpl; [reflexivity|]. rewrite IH. lia. Qed.

Lemma single_line_count l : single_line l -> count_nl l = 0.
Proof.
  unfold single_line. induction l as [|c l IH]; simpl; [reflexivity|].
  rewrite Ascii.eqb_sym. destruct (Ascii.eqb c "010"); simpl; [discriminate | exact IH].
Qed.

(** Joining [n] lines gives a text of [n] lines at most. *)
Lemma count_nl_join ls :
  Forall single_line ls -> count_nl (join nl ls) = Nat.pred (length ls).
Proof.
  unfold join. induction 1 as [|l t Hl Ht IH]; [reflexivity|].
  destruct t as [|l' t'].
  - simpl. now apply single_line_count.
  - change (String.concat nl (l :: l' :: t'))
      with (l +:+ (nl +:+ String.concat nl (l' :: t'))).
    rewrite !count_nl_app, (single_line_count l Hl), IH. reflexivity.
Qed.

(** C4: the diff handed to the notifier is the placeholder when the unified
    diff is empty and its first 60 lines otherwise; as the library adds no
    line feed to lines that have none, it never has more than 60 lines. *)
Theorem C4_rendered_diff_is_bounded
  {lib : Library} (old_excerpt content : string) :
  (forall a b, Forall single_line a -> Forall single_line b ->
               Forall single_line (unified_diff a b "" 5)) ->
  let d := unified_diff (splitlines old_excerpt) (splitlines content) "" 5 in
  (d = [] -> pretty_diff old_excerpt content = placeholder) /\
  (d <> [] -> pretty_diff old_excerpt content = join nl (take 60 d)) /\
  length (take 60 d) <= 60 /\
  line_count (pretty_diff old_excerpt content) <= 60.
Proof.
  intros Hlib d.
  assert (Hd : Forall single_line d).
  { apply Hlib; apply splitlines_single_line. }
  assert (Hp : pretty_diff old_excerpt content
               = match d with [] => placeholder | _ :: _ => join nl (take 60 d) end)
    by reflexivity.
  rewrite Hp. clear Hp.
  split; [now intros ->|].
  split; [destruct d; [congruence | reflexivity]|].
  split; [rewrite length_take; lia|].
  unfold line_count. destruct d as [|l t].
  - vm_compute. lia.
  - change (S (count_nl (join nl (take 60 (l :: t)))) <= 60).
    rewrite count_nl_join by (apply Forall_take; exact Hd).
    rewrite length_take. lia.
Qed.

(** *** The reference diff adds no line feed *)

Lemma single_line_app s t : single_line s -> single_line t -> single_line (s +:+ t).
Proof.
  unfold single_line. intros Hs Ht. induction s as [|c s IH]; [exact Ht|].
  simpl in *. destruct (Ascii.eqb "010" c); [discriminate|]. simpl in *. auto.
Qed.

Lemma digit_not_lf n : Ascii.eqb "010" (ascii_of_nat (48 + n mod 10)) = false.
Proof.
  assert (H : n mod 10 < 10) by (apply Nat.mod_upper_bound; lia).
  remember (n mod 10) as k eqn:Ek. clear Ek.
  do 10 (destruct k as [|k]; [reflexivity|]). lia.
Qed.

Lemma digits_single_line fuel : forall n acc,
  single_line acc -> single_line (Difflib.digits fuel n acc).
Proof.
  induction fuel as [|f IH]; intros n acc Hacc; cbn [Difflib.digits]; [exact Hacc|].
  assert (Hd : single_line (String (ascii_of_nat (48 + n mod 10)) acc)).
  { unfold single_line in *. cbn [has_char]. now rewrite digit_not_lf, Hacc. }
  destruct (n <? 10)%nat; [exact Hd | now apply IH].
Qed.

Lemma decimal_single_line n : single_line (Difflib.decimal n).
Proof. apply digits_single_line. reflexivity. Qed.

Lemma format_range_single_line start stop :
  single_line (Difflib.format_range_unified start stop).
Proof.
  unfold Difflib.format_range_unified.
  destruct (stop - start =? 1)%nat; [apply decimal_single_line|].
  repeat apply single_line_app; try apply decimal_single_line; reflexivity.
Qed.

Lemma prefixed_single_line p ls :
  single_line p -> Forall single_line ls -> Forall single_line (Difflib.prefixed p ls).
Proof.
  intros Hp Hls. unfold Difflib.prefixed. apply Forall_map.
  eapply Forall_impl; [|exact Hls]. intros l Hl. now apply single_line_app.
Qed.

Lemma slice_single_line (l : list string) i1 i2 :
  Forall single_line l -> Forall single_line (Difflib.slice l i1 i2).
Proof. intros H. unfold Difflib.slice. now apply Forall_take, Forall_drop. Qed.

Lemma hunk_single_line a b (g : list Difflib.opcode) :
  Forall single_line a -> Forall single_line b ->
  Forall single_line (Difflib.hunk a b "" g).
Proof.
  intros Ha Hb. unfold Difflib.hunk.
  destruct g as [|[[[[t i1] i2] j1] j2] g']; [constructor|].
  destruct (List.last _ _) as [[[[t' i1'] i2'] j1'] j2'].
  constructor.
  - repeat apply single_line_app; try apply format_range_single_line; reflexivity.
  - apply Forall_concat, Forall_map, Forall_forall.
    intros [[[[u k1] k2] m1] m2] _. unfold Difflib.hunk_lines.
    destruct u; try apply Forall_app_2;
      apply prefixed_single_line; try reflexivity; now apply slice_single_line.
Qed.

Lemma difflib_single_line a b n :
  Forall single_line a -> Forall single_line b ->
  Forall single_line (Difflib.unified_diff a b "" n).
Proof.
  intros Ha Hb. unfold Difflib.unified_diff.
  destruct (Difflib.get_grouped_opcodes a b n) as [|g gs]; [constructor|].
  constructor; [reflexivity|]. constructor; [reflexivity|].
  apply Forall_concat, Forall_map, Forall_forall.
  intros g' _. now apply hunk_single_line.
Qed.

Lemma C4_witness :
  let old_excerpt := "a" +:+ nl +:+ "b" in
  let content := "a" +:+ nl +:+ "b" +:+ nl +:+ "c" in
  let d := unified_diff (Library := plain_library)
             (splitlines old_excerpt) (splitlines content) "" 5 in
  (d = [] -> pretty_diff (lib := plain_library) old_excerpt content = placeholder) /\
  (d <> [] -> pretty_diff (lib := plain_library) old_excerpt content = join nl (take 60 d)) /\
  length (take 60 d) <= 60 /\
  line_count (pretty_diff (lib := plain_library) old_excerpt content) <= 60.
Proof.
  intros old_excerpt content.
  apply (C4_rendered_diff_is_bounded (lib := plain_library) old_excerpt content).
  intros a b. apply difflib_single_line.
Defined.

(** ** Message templates *)

Lemma append_cons c (s t : string) : String c s +:+ t = String c (s +:+ t).
Proof. reflexivity. Qed.

Lemma append_nil (t : string) : "" +:+ t = t.
Proof. reflexivity. Qed.

Lemma append_assoc (s t u : string) : (s +:+ t) +:+ u = s +:+ (t +:+ u).
Proof.
  induction s as [|c s IH]; [reflexivity|]. now rewrite !append_cons, IH.
Qed.

Lemma append_empty_r (s : string) : s +:+ "" = s.
Proof.
  induction s as [|c s IH]; [reflexivity|]. now rewrite append_cons, IH.
Qed.

Lemma startswith_append (s t : string) : startswith (s +:+ t) s = true.
Proof.
  induction s as [|c s IH]; [reflexivity|].
  rewrite append_cons. cbn [startswith]. now rewrite Ascii.eqb_refl.
Qed.

Lemma replace_from_skip old new u : forall t,
  replace_from old new (String.length u) (u +:+ t) = replace_from old new 0 t.
Proof.
  induction u as [|c u IH]; intros t.
  - rewrite append_nil. reflexivity.
  - rewrite append_cons. cbn [String.length replace_from]. apply IH.
Qed.

Lemma rewrites_hit c old new : rewrites (String c old) new (String c old) new.
Proof.
  intros t.
  change (String c old +:+ t) with (String c (old +:+ t)).
  cbn [replace_from].
  change (String c (old +:+ t)) with (String c old +:+ t).
  rewrite startswith_append. cbn [String.length Nat.pred].
  now rewrite replace_from_skip.
Qed.

Lemma rewrites_nil old new : rewrites old new "" "".
Proof. intros t. reflexivity. Qed.

Lemma rewrites_app old new s s' u u' :
  rewrites old new s s' -> rewrites old new u u' ->
  rewrites old new (s +:+ u) (s' +:+ u').
Proof. intros Hs Hu t. now rewrite !append_assoc, Hs, Hu. Qed.

(** A character that starts no occurrence is kept. *)
Lemma rewrites_keep c old new s s' :
  (forall t, startswith (String c (s +:+ t)) old = false) ->
  rewrites old new s s' ->
  rewrites old new (String c s) (String c s').
Proof.
  intros Hc Hs t. rewrite !append_cons.
  cbn [replace_from]. rewrite Hc, Hs. reflexivity.
Qed.

(** Text without a brace holds no placeholder. *)
Lemma rewrites_no_brace old new s :
  no_brace s -> rewrites (String "{" old) new s s.
Proof.
  unfold no_brace. induction s as [|c s IH]; intros Hs; [apply rewrites_nil|].
  simpl in Hs. destruct (Ascii.eqb "{"%char c) eqn:Hc; [discriminate|].
  apply rewrites_keep; [|now apply IH].
  intros t. cbn [startswith]. now rewrite Hc.
Qed.

Lemma rewrites_render old new (f g : piece -> string) ps :
  Forall (fun p => rewrites old new (f p) (g p)) ps ->
  rewrites old new (render f ps) (render g ps).
Proof.
  unfold render. induction 1 as [|p ps Hp Hps IH]; [apply rewrites_nil|].
  assert (E : forall h, String.concat "" (map h (p :: ps))
                        = h p +:+ String.concat "" (map h ps)).
  { intros h. simpl. destruct (map h ps); [now rewrite append_empty_r | reflexivity]. }
  rewrite !E. now apply rewrites_app.
Qed.

Lemma replace_rewrites c old new s s' :
  rewrites (String c old) new s s' -> replace s (String c old) new = s'.
Proof.
  intros H. unfold replace. specialize (H "").
  now rewrite !append_empty_r in H.
Qed.

(** The other placeholders are no occurrence of the one being replaced. *)
Lemma url_keeps_time new : rewrites "{URL}" new "{TIME}" "{TIME}".
Proof.
  apply rewrites_keep; [intros t; reflexivity|].
  now apply (rewrites_no_brace "URL}" new "TIME}").
Qed.

Lemma url_keeps_diff new : rewrites "{URL}" new "{DIFF}" "{DIFF}".
Proof.
  apply rewrites_keep; [intros t; reflexivity|].
  now apply (rewrites_no_brace "URL}" new "DIFF}").
Qed.

Lemma time_keeps_url new : rewrites "{TIME}" new "{URL}" "{URL}".
Proof.
  apply rewrites_keep; [intros t; reflexivity|].
  now apply (rewrites_no_brace "TIME}" new "URL}").
Qed.

Lemma time_keeps_diff new : rewrites "{TIME}" new "{DIFF}" "{DIFF}".
Proof.
  apply rewrites_keep; [intros t; reflexivity|].
  now apply (rewrites_no_brace "TIME}" new "DIFF}").
Qed.

Lemma diff_keeps_url new : rewrites "{DIFF}" new "{URL}" "{URL}".
Proof.
  apply rewrites_keep; [intros t; reflexivity|].
  now apply (rewrites_no_brace "DIFF}" new "URL}").
Qed.

(** The three passes over a URL that is itself written with placeholders,
    inside a template: [{URL}] in the URL is never read again, [{TIME}] and
    [{DIFF}] in it are. *)
Lemma message_text_pieces (cfg : config) (ps us : list piece) (now diff : string) :
  NOTIFY_TEMPLATE cfg = render source ps -> nonempty (NOTIFY_TEMPLATE cfg) = true ->
  Forall plain_text ps -> Forall plain_text us -> no_brace now ->
  message_text cfg now (render source us) diff
  = render (fill (render (fill "{URL}" now diff) us) now diff) ps.
Proof.
  intros Ht Hn Hps Hus Hnow. unfold message_text. rewrite Hn, Ht.
  set (u1 := fun p => match p with Time => now | q => source q end).
  rewrite (replace_rewrites "{" "URL}" (render source us) (render source ps)
             (render (fill (render source us) "{TIME}" "{DIFF}") ps)).
  2: { apply rewrites_render. eapply Forall_impl; [|exact Hps].
       intros [s| | |] Hp; simpl.
       - now apply rewrites_no_brace.
       - apply rewrites_hit.
       - apply url_keeps_time.
       - apply url_keeps_diff. }
  rewrite (replace_rewrites "{" "TIME}" now
             (render (fill (render source us) "{TIME}" "{DIFF}") ps)
             (render (fill (render u1 us) now "{DIFF}") ps)).
  2: { apply rewrites_render. eapply Forall_impl; [|exact Hps].
       intros [s| | |] Hp; simpl.
       - now apply rewrites_no_brace.
       - apply rewrites_render. eapply Forall_impl; [|exact Hus].
         intros [s| | |] Hq; simpl.
         + now apply rewrites_no_brace.
         + apply time_keeps_url.
         + apply rewrites_hit.
         + apply time_keeps_diff.
       - apply rewrites_hit.
       - apply time_keeps_diff. }
  apply replace_rewrites.
  apply rewrites_render. eapply Forall_impl; [|exact Hps].
  intros [s| | |] Hp; simpl.
  - now apply rewrites_no_brace.
  - apply rewrites_render. eapply Forall_impl; [|exact Hus].
    intros [s| | |] Hq; simpl.
    + now apply rewrites_no_brace.
    + apply diff_keeps_url.
    + now apply rewrites_no_brace.
    + apply rewrites_hit.
  - now apply rewrites_no_brace.
  - apply rewrites_hit.
Qed.

Lemma render_cons (f : piece -> string) p ps :
  render f (p :: ps) = f p +:+ render f ps.
Proof.
  unfold render. simpl. destruct (map f ps); [now rewrite append_empty_r | reflexivity].
Qed.

Lemma has_char_app c s t : has_char c (s +:+ t) = has_char c s || has_char c t.
Proof.
  induction s as [|d s IH]; simpl; [reflexivity|]. now rewrite IH, orb_assoc.
Qed.

Lemma no_brace_render (g : piece -> string) ps :
  Forall (fun p => no_brace (g p)) ps -> no_brace (render g ps).
Proof.
  unfold no_brace. induction 1 as [|p ps Hp Hps IH]; [reflexivity|].
  now rewrite render_cons, has_char_app, Hp, IH.
Qed.

Lemma has_char_render c (f : piece -> string) p ps :
  In p ps -> has_char c (f p) = true -> has_char c (render f ps) = true.
Proof.
  intros Hin Hc. induction ps as [|q ps IH]; [destruct Hin|].
  rewrite render_cons, has_char_app. destruct Hin as [->|Hin].
  - now rewrite Hc.
  - rewrite (IH Hin). apply orb_true_r.
Qed.

Lemma startswith_has_char c n : forall s,
  startswith s n = true -> has_char c n = true -> has_char c s = true.
Proof.
  induction n as [|a n IH]; intros s Hp Hc; [discriminate|].
  destruct s as [|b s]; [discriminate|]. cbn [startswith has_char] in *.
  apply andb_true_iff in Hp as [Hab Hp].
  apply Ascii.eqb_eq in Hab as <-.
  destruct (Ascii.eqb c a); [reflexivity|]. simpl in *. now apply IH.
Qed.

(** A text cannot contain a string that has a character it lacks. *)
Lemma contains_has_char c n s :
  has_char c n = true -> has_char c s = false -> contains n s = false.
Proof.
  intros Hn. induction s as [|b s IH]; intros Hs.
  - simpl. destruct n; [discriminate | reflexivity].
  - cbn [contains]. apply orb_false_iff. split.
    + destruct (startswith (String b s) n) eqn:Hp; [|reflexivity].
      now rewrite (startswith_has_char c n _ Hp Hn) in Hs.
    + apply IH. simpl in Hs. now apply orb_false_iff in Hs.
Qed.

(** C8: in a template written with plain text and the placeholders, each
    placeholder is replaced by its value (a URL and a time without an opening
    brace, any diff); the time [build_message] passes is the formatted
    reading of the clock. *)
Theorem C8_template_placeholders_are_substituted
  {lib : Library} (cfg : config) (ps : list piece) (url now diff : string) :
  NOTIFY_TEMPLATE cfg = render source ps -> nonempty (NOTIFY_TEMPLATE cfg) = true ->
  Forall plain_text ps -> no_brace url -> no_brace now ->
  message_text cfg now url diff = render (fill url now diff) ps /\
  forall env w,
    fst (build_message cfg env url diff w)
    = Ret (message_text cfg (strftime time_format (clock env (ticks w))) url diff).
Proof.
  intros Ht Hn Hps Hurl Hnow. split; [|reflexivity].
  assert (Hu : Forall plain_text [Text url]) by (constructor; [exact Hurl | constructor]).
  exact (message_text_pieces cfg ps [Text url] now diff Ht Hn Hps Hu Hnow).
Qed.

Lemma C8_witness :
  let cfg := {| TARGET_URL := Some "https://example.com"; CSS_SELECTOR := "";
                IGNORE_REGEX := ""; USER_AGENT := "ChangeWatcher/1.2 (+github actions)";
                NTFY_SERVER := "https://ntfy.sh"; NTFY_TOPIC := "m2";
                NOTIFY_TEMPLATE := "{URL} changed at {TIME}: {DIFF}";
                NOTIFY_PREFIX := ""; NOTIFY_TITLE := None |} in
  message_text cfg "2024-01-01 00:00:00" "https://example.com" "+new line"
  = "https://example.com changed at 2024-01-01 00:00:00: +new line".
Proof.
  intros cfg.
  refine (proj1 (C8_template_placeholders_are_substituted (lib := plain_library) cfg
                   [Url; Text " changed at "; Time; Text ": "; Diff]
                   "https://example.com" "2024-01-01 00:00:00" "+new line"
                   eq_refl eq_refl _ eq_refl eq_refl)).
  repeat constructor.
Defined.

(** C10: the placeholders are replaced one after the other, [{URL}] first,
    then [{TIME}], then [{DIFF}], each pass reading what the passes before
    it put in.  So when the URL itself is written with [{TIME}] or [{DIFF}],
    the message shows it with the time or the diff in their place, and
    (unless the diff brings in a brace) does not contain the URL as given. *)
Theorem C10_substitution_is_sequential
  (cfg : config) (ps us : list piece) (now diff : string) :
  NOTIFY_TEMPLATE cfg = render source ps -> nonempty (NOTIFY_TEMPLATE cfg) = true ->
  Forall plain_text ps -> Forall plain_text us -> no_brace now ->
  let url := render source us in
  let msg := message_text cfg now url diff in
  msg = replace (replace (replace (NOTIFY_TEMPLATE cfg) "{URL}" url) "{TIME}" now)
          "{DIFF}" diff /\
  msg = render (fill (render (fill "{URL}" now diff) us) now diff) ps /\
  (~ In Url us -> In Time us \/ In Diff us -> no_brace diff -> contains url msg = false).
Proof.
  intros Ht Hn Hps Hus Hnow url msg.
  assert (Hmsg := message_text_pieces cfg ps us now diff Ht Hn Hps Hus Hnow).
  fold url in Hmsg. fold msg in Hmsg.
  split; [unfold msg, message_text; now rewrite Hn|].
  split; [exact Hmsg|].
  intros Hno Hin Hdiff.
  apply (contains_has_char "{").
  - destruct Hin as [Hin|Hin]; now apply (has_char_render _ _ _ _ Hin).
  - rewrite Hmsg. apply no_brace_render.
    eapply Forall_impl; [|exact Hps]. intros [s| | |] Hp; simpl; auto.
    apply no_brace_render. apply Forall_forall. intros q Hq.
    rewrite Forall_forall in Hus. specialize (Hus q Hq).
    destruct q; simpl; auto. contradiction.
Qed.

Lemma C10_witness :
  let cfg := {| TARGET_URL := Some "https://example.com/{TIME}/feed"; CSS_SELECTOR := "";
                IGNORE_REGEX := ""; USER_AGENT := "ChangeWatcher/1.2 (+github actions)";
                NTFY_SERVER := "https://ntfy.sh"; NTFY_TOPIC := "m2";
                NOTIFY_TEMPLATE := "{URL} changed at {TIME}: {DIFF}";
                NOTIFY_PREFIX := ""; NOTIFY_TITLE := None |} in
  let url := "https://example.com/{TIME}/feed" in
  let msg := message_text cfg "2024-01-01 00:00:00 UTC" url "+new line" in
  msg = "https://example.com/2024-01-01 00:00:00 UTC/feed changed at 2024-01-01 00:00:00 UTC: +new line"
  /\ contains url msg = false.
Proof.
  intros cfg url msg.
  assert (Hps : Forall plain_text [Url; Text " changed at "; Time; Text ": "; Diff])
    by (repeat constructor).
  assert (Hus : Forall plain_text [Text "https://example.com/"; Time; Text "/feed"])
    by (repeat constructor).
  destruct (C10_substitution_is_sequential cfg
              [Url; Text " changed at "; Time; Text ": "; Diff]
              [Text "https://example.com/"; Time; Text "/feed"]
              "2024-01-01 00:00:00 UTC" "+new line"
              eq_refl eq_refl Hps Hus eq_refl) as (_ & H2 & H3).
  split.
  - exact H2.
  - apply H3.
    + simpl. intros [H|[H|[H|[]]]]; discriminate.
    + left. simpl. auto.
    + reflexivity.
Defined.

(** ** Excerpts *)

#[local] Arguments is_line_boundary : simpl never.

Lemma add_char_first c ls : add_char c ls = String c (first_line ls) :: tail ls.
Proof. now destruct ls. Qed.

(** [boundary_len] reads three bytes at most. *)
Lemma boundary_len_window c v r :
  boundary_len (String c (v +:+ String "010" r)) = boundary_len (String c (v +:+ nl)).
Proof. destruct v as [|d [|e v]]; reflexivity. Qed.

(** A carriage return is a boundary whatever follows. *)
Lemma boundary_len_cr t : boundary_len (String "013" t) <> 0.
Proof.
  unfold boundary_len. destruct (startswith _ CRLF); [discriminate|].
  destruct (startswith _ NEL); [discriminate|].
  destruct (startswith _ LS); [discriminate|].
  destruct (startswith _ PS); discriminate.
Qed.

(** The tests of [boundary_len], decided byte by byte. *)
Ltac bytes_step a b :=
  first [ is_var b; destruct (Ascii.eqb_spec a b); [subst b|]
        | let v := eval vm_compute in (Ascii.eqb a b) in
          change (Ascii.eqb a b) with v in * ];
  cbn [andb] in *.

Ltac bytes :=
  unfold boundary_len, nl in *; rewrite ?append_cons, ?append_nil in *;
  cbn [startswith CRLF NEL LS PS] in *;
  repeat match goal with
         | H : context [Ascii.eqb ?a ?b] |- _ => bytes_step a b
         | |- context [Ascii.eqb ?a ?b] => bytes_step a b
         end;
  repeat match goal with
         | H : context [is_line_boundary (Ascii ?b0 ?b1 ?b2 ?b3 ?b4 ?b5 ?b6 ?b7)] |- _ =>
             let v := eval vm_compute in (is_line_boundary (Ascii b0 b1 b2 b3 b4 b5 b6 b7)) in
             change (is_line_boundary (Ascii b0 b1 b2 b3 b4 b5 b6 b7)) with v in *
         | |- context [is_line_boundary (Ascii ?b0 ?b1 ?b2 ?b3 ?b4 ?b5 ?b6 ?b7)] =>
             let v := eval vm_compute in (is_line_boundary (Ascii b0 b1 b2 b3 b4 b5 b6 b7)) in
             change (is_line_boundary (Ascii b0 b1 b2 b3 b4 b5 b6 b7)) with v in *
         end;
  try discriminate; try assumption; try reflexivity; try congruence.

Lemma boundary_len_shrink c v :
  boundary_len (String c (v +:+ nl)) = 0 -> boundary_len (String c v) = 0.
Proof.
  intros H.
  destruct (Ascii.eqb_spec "013" c) as [<-|Hc]; [now apply boundary_len_cr in H|].
  destruct v as [|d [|e v]]; bytes.
Qed.

(** The first line of what follows a byte that starts no boundary can be
    put behind that byte with a line feed, and no boundary appears. *)
Lemma boundary_len_first_line c r :
  boundary_len (String c r) = 0 ->
  boundary_len (String c (first_line (splitlines_from 0 r) +:+ nl)) = 0.
Proof.
  intros H.
  destruct (Ascii.eqb_spec "013" c) as [<-|Hc]; [now apply boundary_len_cr in H|].
  destruct r as [|d r1]; [cbn [splitlines_from first_line]; bytes|].
  cbn [splitlines_from].
  destruct (boundary_len (String d r1)) eqn:B1; [|cbn [first_line]; bytes].
  rewrite add_char_first. cbn [first_line].
  destruct r1 as [|e r2]; [cbn [splitlines_from first_line]; bytes|].
  cbn [splitlines_from].
  destruct (boundary_len (String e r2)) eqn:B2; [|cbn [first_line]; clear B1 B2; bytes].
  rewrite add_char_first. cbn [first_line]. rewrite !append_cons. exact H.
Qed.

(** The lines [splitlines] returns are quiet. *)
Lemma splitlines_from_quiet s : forall skip, Forall quiet (splitlines_from skip s).
Proof.
  induction s as [|c r IH]; intros skip; cbn [splitlines_from]; [constructor|].
  destruct skip as [|k]; [|apply IH].
  destruct (boundary_len (String c r)) as [|k] eqn:B.
  - rewrite add_char_first. specialize (IH 0).
    constructor.
    + cbn [quiet]. split; [now apply boundary_len_first_line|].
      destruct IH; [exact I | assumption].
    + destruct IH; [constructor | assumption].
  - constructor; [exact I | apply IH].
Qed.

(** A quiet line followed by a line feed is read back as that line. *)
Lemma splitlines_quiet_line l : quiet l -> forall r,
  splitlines_from 0 (l +:+ String "010" r) = l :: splitlines_from 0 r.
Proof.
  induction l as [|c v IH]; intros Hq r.
  - reflexivity.
  - destruct Hq as [Hb Hq]. rewrite append_cons. cbn [splitlines_from].
    rewrite boundary_len_window, Hb, (IH Hq). reflexivity.
Qed.

(** A quiet line on its own is one line at most. *)
Lemma splitlines_quiet_last l : quiet l -> length (splitlines_from 0 l) <= 1.
Proof.
  induction l as [|c v IH]; intros Hq; [cbn; lia|].
  destruct Hq as [Hb Hq]. cbn [splitlines_from].
  rewrite (boundary_len_shrink _ _ Hb), add_char_first. cbn [length].
  specialize (IH Hq). destruct (splitlines_from 0 v) as [|? [|? ?]]; cbn in *; lia.
Qed.

(** Joining quiet lines with line feeds and splitting again gives no more
    lines than there were. *)
Lemma splitlines_join_length ls :
  Forall quiet ls -> length (splitlines (join nl ls)) <= length ls.
Proof.
  unfold splitlines, join. induction 1 as [|l t Hl Ht IH]; [cbn; lia|].
  destruct t as [|l' t'].
  - cbn [String.concat length]. now apply splitlines_quiet_last.
  - change (String.concat nl (l :: l' :: t'))
      with (l +:+ String "010" (String.concat nl (l' :: t'))).
    rewrite (splitlines_quiet_line l Hl). cbn [length] in *. lia.
Qed.

Lemma excerpt_length s : length (splitlines (excerpt s)) <= 400.
Proof.
  unfold excerpt.
  etransitivity; [apply splitlines_join_length|].
  - apply Forall_take, splitlines_from_quiet.
  - rewrite length_take. lia.
Qed.

(** C9: the stored state comes from a text of more than 400 lines, and the
    page now shows exactly the stored excerpt.  The two texts differ, so
    (SHA-256 not colliding on them) do their fingerprints: the run detects a
    change, notifies and records it.  The diff is taken between the stored
    excerpt and the new text, which are the same lines, so it is empty and
    the message carries the placeholder. *)
Theorem C9_placeholder_after_truncation
  {lib : Library} (cfg : config) (env : environment) (w w1 : world)
  (target prev : string) (etag lm : value) :
  TARGET_URL cfg = Some target -> nonempty target = true ->
  let st := loaded w in
  let new := excerpt prev in
  st !! "last_hash" = Some (VStr (sha256 prev)) ->
  st !! "last_excerpt" = Some (VStr (excerpt prev)) ->
  400 < length (splitlines prev) ->
  (sha256 new = sha256 prev -> new = prev) ->
  unified_diff (splitlines new) (splitlines new) "" 5 = [] ->
  fetch_content cfg env target (dict_get st "etag") (dict_get st "last_modified") w
    = (Ret (Some new, etag, lm, false), w1) ->
  new <> prev /\
  sha256 new <> sha256 prev /\
  pretty_diff (excerpt prev) new = placeholder /\
  exists w' st',
    main cfg env w = (Ret tt, w') /\
    state_file w' = Some st' /\
    st' !! "last_hash" = Some (VStr (sha256 new)) /\
    skipn (length (trace w1)) (trace w') =
      ntfy_events cfg (default "Ergebnis M2" (NOTIFY_TITLE cfg))
        (message_text cfg (strftime time_format (clock env (ticks w1))) target placeholder)
      ++ [Write st'].
Proof.
  intros Ht Hn st new Hh He Hlen Hsha Hdiff E.
  assert (Hne : new <> prev).
  { intros Heq. pose proof (excerpt_length prev) as Hl. fold new in Hl.
    rewrite Heq in Hl. lia. }
  assert (Hfp : sha256 new <> sha256 prev) by (intros Heq; now apply Hne, Hsha).
  assert (Hp : pretty_diff (excerpt prev) new = placeholder).
  { unfold pretty_diff. fold new. now rewrite Hdiff. }
  split; [exact Hne|]. split; [exact Hfp|]. split; [exact Hp|].
  assert (Hold : VStr (sha256 new) <> dict_get st "last_hash").
  { unfold dict_get. rewrite Hh. simpl. congruence. }
  assert (Hex : stored_excerpt st = Some (excerpt prev)).
  { unfold stored_excerpt. now rewrite He. }
  eexists. eexists.
  split; [exact (main_changed cfg env target w w1 etag lm Ht Hn new _ E Hold Hex)|].
  unfold written, bookkeeping, record_change. cbn [state_file trace].
  split; [reflexivity|].
  split; [now rewrite 5!lookup_insert_ne, lookup_insert_eq by done|].
  rewrite Hp. now rewrite skipn_app, skipn_all, Nat.sub_diag.
Qed.

Lemma C9_witness :
  let prev := Scenario.long_text in
  let new := excerpt prev in
  let env := Scenario.env_of (Scenario.server "v2" new) in
  let w := Scenario.later_run (Scenario.stored prev "v1" 1700000000) in
  let w1 := snd (fetch_content (lib := plain_library) Scenario.cfg env
                   "https://example.com" (VStr "v1") VNone w) in
  new <> prev /\
  sha256 (lib := plain_library) new <> sha256 (lib := plain_library) prev /\
  pretty_diff (lib := plain_library) (excerpt prev) new = placeholder /\
  exists w' st',
    main (lib := plain_library) Scenario.cfg env w = (Ret tt, w') /\
    state_file w' = Some st' /\
    st' !! "last_hash" = Some (VStr (sha256 (lib := plain_library) new)) /\
    skipn (length (trace w1)) (trace w') =
      ntfy_events Scenario.cfg "Ergebnis M2"
        (message_text Scenario.cfg
           (strftime (Library := plain_library) time_format (clock env (ticks w1)))
           "https://example.com" placeholder)
      ++ [Write st'].
Proof.
  intros prev new env w w1.
  apply (C9_placeholder_after_truncation (lib := plain_library) Scenario.cfg env w w1
           "https://example.com" prev (VStr "v2") VNone).
  - reflexivity.
  - reflexivity.
  - vm_compute. reflexivity.
  - vm_compute. reflexivity.
  - apply Nat.ltb_lt. vm_compute. reflexivity.
  - intros H. exfalso. revert H. apply String.eqb_neq. vm_compute. reflexivity.
  - vm_compute. reflexivity.
  - vm_compute. reflexivity.
Defined.

(** * Further properties of the program *)

(** ** The paths of a run, all of them *)

Lemma nonempty_false s : nonempty s = false -> s = "".
Proof.
  unfold nonempty. destruct (String.eqb_spec s ""); [auto | discriminate].
Qed.

Lemma main_path {lib : Library} (cfg : config) (env : environment) (w : world) :
  path cfg env w (main cfg env w).
Proof.
  destruct (TARGET_URL cfg) as [target|] eqn:Ht.
  2: { unfold main. rewrite Ht. apply NoTarget. now left. }
  destruct (nonempty target) eqn:Hn.
  2: { unfold main. rewrite Ht, Hn. apply NoTarget. right.
       rewrite Ht. f_equal. now apply nonempty_false. }
  destruct (fetch_content cfg env target (dict_get (loaded w) "etag")
              (dict_get (loaded w) "last_modified") w)
    as [[[[[c e] l] nm]|ex] w1] eqn:E;
    pose proof (fetch_content_world _ _ _ _ _ _ _ _ E) as ->.
  2: { rewrite (main_fetch_raises cfg env target w ex _ Ht Hn E).
       now apply FetchFailed. }
  destruct nm.
  - rewrite (main_not_modified cfg env target w _ e l Ht Hn c E).
    now apply NotModified.
  - destruct (fetch_content_modified _ _ _ _ _ _ _ _ _ _ E) as [s ->].
    destruct (decide (VStr (sha256 s) = dict_get (loaded w) "last_hash")) as [Hh|Hh].
    + rewrite (main_same_hash cfg env target w _ e l Ht Hn s E Hh).
      now apply Unchanged with (content := s).
    + destruct (stored_excerpt (loaded w)) as [old|] eqn:Ho.
      * rewrite (main_changed cfg env target w _ e l Ht Hn s old E Hh Ho).
        now apply Changed with (content := s).
      * rewrite (main_bad_excerpt cfg env target w _ s e l Ht Hn E Hh Ho).
        now apply BadExcerpt with (content := s) (etag := e) (lm := l).
Qed.

(** ** What a run does, and in which order *)

Lemma new_events_app (w : world) (es : list event) (w' : world) :
  trace w' = trace w ++ es -> new_events w w' = es.
Proof.
  intros E. unfold new_events. now rewrite E, skipn_app, skipn_all, Nat.sub_diag.
Qed.

Lemma new_events_none (w : world) : new_events w w = [].
Proof. apply new_events_app. now rewrite app_nil_r. Qed.

Lemma new_events_get (w : world) rq : new_events w (after_get rq w) = [Http rq].
Proof. now apply new_events_app. Qed.

Lemma new_events_written (w : world) rq st n es :
  new_events w (written st n es (after_get rq w)) = Http rq :: es ++ [Write st].
Proof. apply new_events_app. cbn. now rewrite <- app_assoc. Qed.

Lemma ntfy_events_post cfg title text :
  existsb is_post (ntfy_events cfg title text) = nonempty (NTFY_TOPIC cfg).
Proof. unfold ntfy_events. now destruct (nonempty (NTFY_TOPIC cfg)). Qed.

Lemma ntfy_events_write cfg title text :
  existsb is_write (ntfy_events cfg title text) = false.
Proof. unfold ntfy_events. now destruct (nonempty (NTFY_TOPIC cfg)). Qed.

Lemma trace_written (w : world) rq st n es :
  trace (written st n es (after_get rq w)) = trace w ++ Http rq :: es ++ [Write st].
Proof. cbn. now rewrite <- app_assoc. Qed.

(** X1: whatever happens, a run only adds to the trace, and what it adds is
    in order: nothing at all, or the GET request, then at most one POST
    request, then at most one write of [state.json]. *)
Theorem X1_effects_in_order {lib : Library} (cfg : config) (env : environment) (w : world) :
  let w' := snd (main cfg env w) in
  trace w' = trace w ++ new_events w w' /\
  well_ordered (new_events w w') = true.
Proof.
  intros w'. subst w'. destruct (main_path cfg env w); cbn [snd]; try subst w1.
  - rewrite new_events_none. now rewrite app_nil_r.
  - rewrite new_events_get. now split.
  - rewrite new_events_written, trace_written. now split.
  - rewrite new_events_written, trace_written. now split.
  - rewrite new_events_written, trace_written. split; [reflexivity|].
    unfold ntfy_events. now destruct (nonempty (NTFY_TOPIC cfg)).
  - rewrite new_events_get. now split.
Qed.

(** X2: [state.json] is written exactly by the runs that return normally, as
    their last effect, once, and with the dictionary that is then in the
    file; a run that raises writes nothing and leaves the file as it was. *)
Theorem X2_written_iff_completed {lib : Library} (cfg : config) (env : environment)
  (w : world) :
  let w' := snd (main cfg env w) in
  match fst (main cfg env w) with
  | Ret _ => exists st' es, state_file w' = Some st' /\
                            new_events w w' = es ++ [Write st'] /\
                            existsb is_write es = false
  | Raise _ => state_file w' = state_file w /\
               existsb is_write (new_events w w') = false
  end.
Proof.
  intros w'. subst w'. destruct (main_path cfg env w); cbn [fst snd]; try subst w1.
  - now rewrite new_events_none.
  - now rewrite new_events_get.
  - eexists. eexists. rewrite new_events_written.
    split; [reflexivity|]. split; [apply app_comm_cons | reflexivity].
  - eexists. eexists. rewrite new_events_written.
    split; [reflexivity|]. split; [apply app_comm_cons | reflexivity].
  - eexists. eexists. rewrite new_events_written.
    split; [reflexivity|]. split; [apply app_comm_cons |].
    cbn [existsb is_write orb]. apply ntfy_events_write.
  - now rewrite new_events_get.
Qed.

(** X3: a POST request goes out in exactly those runs that change the
    stored fingerprint while a topic is configured. *)
Theorem X3_notified_iff_fingerprint_changes {lib : Library} (cfg : config)
  (env : environment) (w : world) :
  let w' := snd (main cfg env w) in
  existsb is_post (new_events w w')
  = nonempty (NTFY_TOPIC cfg)
    && negb (bool_decide (loaded w' !! "last_hash" = loaded w !! "last_hash")).
Proof.
  intros w'. subst w'. destruct (main_path cfg env w); cbn [snd]; try subst w1.
  - rewrite new_events_none.
    rewrite bool_decide_eq_true_2 by reflexivity. now rewrite andb_false_r.
  - rewrite new_events_get.
    rewrite bool_decide_eq_true_2 by reflexivity. now rewrite andb_false_r.
  - rewrite new_events_written.
    rewrite bool_decide_eq_true_2; [now rewrite andb_false_r|].
    cbn. now rewrite lookup_insert_ne.
  - rewrite new_events_written.
    rewrite bool_decide_eq_true_2; [now rewrite andb_false_r|].
    cbn. unfold bookkeeping. now rewrite 3!lookup_insert_ne.
  - rewrite new_events_written.
    cbn [existsb is_post fetch_request req_method orb].
    rewrite existsb_app, ntfy_events_post. cbn [existsb is_post orb].
    rewrite orb_false_r.
    rewrite bool_decide_eq_false_2; [now rewrite andb_true_r|].
    cbn. unfold bookkeeping, record_change.
    rewrite 5!lookup_insert_ne, lookup_insert_eq by done.
    intros Heq. apply H2. unfold dict_get. now rewrite <- Heq.
  - rewrite new_events_get.
    rewrite bool_decide_eq_true_2 by reflexivity. now rewrite andb_false_r.
Qed.

(** ** The stored dictionary across runs *)

(** X4: the start dictionary is coherent, and every run keeps the stored
    dictionary coherent: the fingerprint and the excerpt in [state.json]
    always belong to one and the same text. *)
Theorem X4_fingerprint_and_excerpt_stay_together {lib : Library} (cfg : config)
  (env : environment) (w : world) :
  coherent default_state /\
  (coherent (loaded w) -> coherent (loaded (snd (main cfg env w)))).
Proof.
  split; [now left|].
  intros Hc. destruct (main_path cfg env w); cbn [snd]; try subst w1; try exact Hc.
  - unfold coherent, dict_get in *. cbn.
    rewrite !(lookup_insert_ne _ "last_ok_run") by done. exact Hc.
  - unfold coherent, dict_get, bookkeeping in *. cbn.
    rewrite !(lookup_insert_ne _ "last_ok_run"), !(lookup_insert_ne _ "last_modified"),
      !(lookup_insert_ne _ "etag") by done.
    exact Hc.
  - right. exists content. unfold bookkeeping, record_change. cbn.
    split.
    + now rewrite 5!lookup_insert_ne, lookup_insert_eq by done.
    + now rewrite 4!lookup_insert_ne, lookup_insert_eq by done.
Qed.

Lemma X4_witness :
  let w := Scenario.later_run (Scenario.stored "old text" "v1" 1700000000) in
  let env := Scenario.env_of (Scenario.server "v2" "new text") in
  coherent (lib := plain_library)
    (loaded (snd (main (lib := plain_library) Scenario.cfg env w))).
Proof.
  intros w env.
  apply (X4_fingerprint_and_excerpt_stay_together (lib := plain_library) Scenario.cfg env w).
  right. exists "old text". split; vm_compute; reflexivity.
Defined.

(** X5: a run never touches an entry of [state.json] other than the six it
    maintains: whatever else the file holds is carried over. *)
Theorem X5_other_entries_are_kept {lib : Library} (cfg : config) (env : environment)
  (w : world) (k : string) :
  ~ In k managed_keys ->
  loaded (snd (main cfg env w)) !! k = loaded w !! k.
Proof.
  intros Hk. unfold managed_keys in Hk. cbn [In] in Hk.
  assert (H1 : "last_hash" <> k) by tauto.
  assert (H2 : "last_excerpt" <> k) by tauto.
  assert (H3 : "updated_at" <> k) by tauto.
  assert (H4 : "etag" <> k) by tauto.
  assert (H5 : "last_modified" <> k) by tauto.
  assert (H6 : "last_ok_run" <> k) by tauto.
  destruct (main_path cfg env w); cbn [snd]; try subst w1; try reflexivity.
  - cbn. now rewrite lookup_insert_ne.
  - cbn. unfold bookkeeping. now rewrite 3!lookup_insert_ne.
  - cbn. unfold bookkeeping, record_change. now rewrite 6!lookup_insert_ne.
Qed.

Lemma X5_witness :
  let st := <["note" := VStr "kept by hand"]> (Scenario.stored "old text" "v1" 1700000000) in
  let w := Scenario.later_run st in
  let env := Scenario.env_of (Scenario.server "v2" "new text") in
  loaded (snd (main (lib := plain_library) Scenario.cfg env w)) !! "note"
  = Some (VStr "kept by hand").
Proof.
  intros st w env.
  rewrite (X5_other_entries_are_kept (lib := plain_library) Scenario.cfg env w "note").
  - vm_compute. reflexivity.
  - cbn. intros [H|[H|[H|[H|[H|[H|[]]]]]]]; discriminate H.
Defined.

(** X6: a text is announced once.  When a run has fetched a text and
    completed, and the next run fetches the same text again, the next run
    completes without a POST request and leaves the fingerprint, the excerpt
    and the time of the change as they are. *)
Theorem X6_same_text_is_not_announced_again {lib : Library} (cfg : config)
  (env env2 : environment) (w w1 w2 : world) (target content : string)
  (etag lm etag2 lm2 : value) :
  TARGET_URL cfg = Some target -> nonempty target = true ->
  fetch_content cfg env target (dict_get (loaded w) "etag")
    (dict_get (loaded w) "last_modified") w = (Ret (Some content, etag, lm, false), w1) ->
  fst (main cfg env w) = Ret tt ->
  let w' := snd (main cfg env w) in
  fetch_content cfg env2 target (dict_get (loaded w') "etag")
    (dict_get (loaded w') "last_modified") w' = (Ret (Some content, etag2, lm2, false), w2) ->
  let w'' := snd (main cfg env2 w') in
  fst (main cfg env2 w') = Ret tt /\
  existsb is_post (new_events w' w'') = false /\
  loaded w'' !! "last_hash" = loaded w' !! "last_hash" /\
  loaded w'' !! "last_excerpt" = loaded w' !! "last_excerpt" /\
  loaded w'' !! "updated_at" = loaded w' !! "updated_at".
Proof.
  intros Ht Hn E Hr w' E2 w''.
  assert (Hh : VStr (sha256 content) = dict_get (loaded w') "last_hash").
  { subst w'.
    destruct (decide (VStr (sha256 content) = dict_get (loaded w) "last_hash")) as [Hh|Hh].
    - rewrite (main_same_hash cfg env target w w1 etag lm Ht Hn content E Hh).
      cbn [snd written loaded state_file]. unfold bookkeeping.
      now rewrite 3!dict_get_insert_ne.
    - destruct (stored_excerpt (loaded w)) as [old|] eqn:Ho.
      + rewrite (main_changed cfg env target w w1 etag lm Ht Hn content old E Hh Ho).
        cbn [snd written loaded state_file]. unfold bookkeeping, record_change.
        now rewrite 5!dict_get_insert_ne, dict_get_insert_eq.
      + rewrite (main_bad_excerpt cfg env target w w1 content etag lm Ht Hn E Hh Ho) in Hr.
        discriminate Hr. }
  subst w''.
  rewrite (main_same_hash cfg env2 target w' w2 etag2 lm2 Ht Hn content E2 Hh).
  pose proof (fetch_content_world _ _ _ _ _ _ _ _ E2) as ->.
  cbn [fst snd]. rewrite new_events_written.
  cbn [written loaded state_file]. unfold bookkeeping.
  repeat split; try reflexivity; now rewrite 3!lookup_insert_ne.
Qed.

Lemma X6_witness :
  let env := Scenario.env_of (fun _ => Answer {| status_code := 200;
               headers := Scenario.no_headers; text := "some text" |}) in
  let w := Scenario.first_run in
  let w' := snd (main (lib := plain_library) Scenario.cfg env w) in
  let w'' := snd (main (lib := plain_library) Scenario.cfg env w') in
  fst (main (lib := plain_library) Scenario.cfg env w') = Ret tt /\
  existsb is_post (new_events w' w'') = false /\
  loaded w'' !! "last_hash" = loaded w' !! "last_hash" /\
  loaded w'' !! "last_excerpt" = loaded w' !! "last_excerpt" /\
  loaded w'' !! "updated_at" = loaded w' !! "updated_at".
Proof.
  intros env w w' w''.
  apply (X6_same_text_is_not_announced_again (lib := plain_library) Scenario.cfg env env w
           (snd (fetch_content (lib := plain_library) Scenario.cfg env
                   "https://example.com" VNone VNone w))
           (snd (fetch_content (lib := plain_library) Scenario.cfg env
                   "https://example.com" VNone VNone w'))
           "https://example.com" "some text" VNone VNone VNone VNone).
  - reflexivity.
  - reflexivity.
  - vm_compute. reflexivity.
  - vm_compute. reflexivity.
  - vm_compute. reflexivity.
Defined.

(** ** Requests *)

(** X7: the GET request always carries the configured [User-Agent], carries
    [If-None-Match] and [If-Modified-Since] exactly for the validators that
    are set (an empty string counts as not set), and carries nothing else;
    on a first run, without [state.json], [User-Agent] is its only header. *)
Theorem X7_conditional_request {lib : Library} (cfg : config) (env : environment)
  (w : world) (target : string) :
  TARGET_URL cfg = Some target -> nonempty target = true ->
  let etag := dict_get (loaded w) "etag" in
  let lm := dict_get (loaded w) "last_modified" in
  exists hs es,
    new_events w (snd (main cfg env w)) = Http (mkRequest GET target hs "" 30) :: es /\
    hs !! "User-Agent" = Some (VStr (USER_AGENT cfg)) /\
    hs !! "If-None-Match" = (if truthy etag then Some etag else None) /\
    hs !! "If-Modified-Since" = (if truthy lm then Some lm else None) /\
    (forall k, k <> "User-Agent" -> k <> "If-None-Match" -> k <> "If-Modified-Since" ->
               hs !! k = None) /\
    (state_file w = None -> hs = {[ "User-Agent" := VStr (USER_AGENT cfg) ]}).
Proof.
  intros Ht Hn etag lm.
  exists (conditional_headers cfg etag lm).
  assert (Hes : exists es, new_events w (snd (main cfg env w))
                           = Http (fetch_request cfg target etag lm) :: es).
  { destruct (main_path cfg env w); cbn [snd]; try subst w1;
      match goal with
      | H : _ \/ _ |- _ =>
          exfalso; rewrite Ht in H; destruct H as [H|H]; [discriminate H|];
          injection H as ->; discriminate Hn
      | H : TARGET_URL cfg = Some _ |- _ => rewrite Ht in H; injection H as <-
      end;
      rewrite ?new_events_get, ?new_events_written; eauto. }
  destruct Hes as [es Hes]. exists es. split; [exact Hes|].
  unfold conditional_headers.
  repeat split.
  - destruct (truthy etag), (truthy lm);
      now rewrite ?(lookup_insert_ne _ "If-Modified-Since"),
        ?(lookup_insert_ne _ "If-None-Match"), lookup_insert_eq by done.
  - destruct (truthy etag), (truthy lm);
      rewrite ?(lookup_insert_ne _ "If-Modified-Since") by done;
      rewrite ?lookup_insert_eq; try reflexivity;
      now rewrite lookup_insert_ne, lookup_empty by done.
  - destruct (truthy etag), (truthy lm);
      rewrite ?lookup_insert_eq; try reflexivity;
      now rewrite ?(lookup_insert_ne _ "If-None-Match"),
        ?(lookup_insert_ne _ "User-Agent"), lookup_empty by done.
  - intros k H1 H2 H3.
    destruct (truthy etag), (truthy lm);
      now rewrite ?(lookup_insert_ne _ "If-Modified-Since"),
        ?(lookup_insert_ne _ "If-None-Match"), (lookup_insert_ne _ "User-Agent"),
        lookup_empty by done.
  - intros Hf. subst etag lm. unfold loaded. rewrite Hf. reflexivity.
Qed.

Lemma X7_witness :
  let w := Scenario.later_run (Scenario.stored "old text" "v1" 1700000000) in
  let env := Scenario.env_of (Scenario.server "v1" "old text") in
  exists hs es,
    new_events w (snd (main (lib := plain_library) Scenario.cfg env w))
      = Http (mkRequest GET "https://example.com" hs "" 30) :: es /\
    hs !! "User-Agent" = Some (VStr "ChangeWatcher/1.2 (+github actions)") /\
    hs !! "If-None-Match" = Some (VStr "v1") /\
    hs !! "If-Modified-Since" = None.
Proof.
  intros w env.
  destruct (X7_conditional_request (lib := plain_library) Scenario.cfg env w
              "https://example.com" eq_refl eq_refl)
    as (hs & es & H1 & H2 & H3 & H4 & _).
  exists hs, es. repeat split; assumption.
Defined.

Section FetchEdges.

Context {lib : Library} (cfg : config) (env : environment).

(** The validators a fetch returns with a page: those of the answer, or
    else those sent. *)
Lemma fetch_content_validators url etag lm w r c e l w1 :
  http_get env (fetch_request cfg url etag lm) = Answer r ->
  fetch_content cfg env url etag lm w = (Ret (c, e, l, false), w1) ->
  e = match headers r "ETag" with Some s => VStr s | None => etag end /\
  l = match headers r "Last-Modified" with Some s => VStr s | None => lm end.
Proof.
  intros Hr. unfold fetch_request in Hr.
  fetch_paths cfg env ltac:(try discriminate Hr; try (injection Hr as <-); now inversion 1).
Qed.

(** Only an answer with status 304 is reported as "not modified". *)
Lemma fetch_content_304 url etag lm w r c e l w1 :
  http_get env (fetch_request cfg url etag lm) = Answer r ->
  fetch_content cfg env url etag lm w = (Ret (c, e, l, true), w1) ->
  status_code r = 304%Z.
Proof.
  intros Hr. unfold fetch_request in Hr.
  unfold fetch_content, requests_get, raise_for_status, re_sub, try_except,
    lift, bind, log, ret, raise.
  cbv beta zeta. rewrite Hr.
  destruct (Z.eqb_spec (status_code r) 304); [auto|].
  destruct (_ && _); [discriminate|].
  destruct (BeautifulSoup _) as [soup|e0]; [|discriminate].
  (destruct (nonempty (CSS_SELECTOR cfg));
   [destruct (select_one _ _) as [[node|]|e0]; [| |discriminate]|]);
  (destruct (nonempty (IGNORE_REGEX cfg));
   [destruct (re_compile (IGNORE_REGEX cfg)) as [p|[]]|]);
  discriminate.
Qed.

(** The status of an answer counts for nothing once it is neither 304 nor
    from 400 to 599. *)
Lemma fetch_content_status url etag lm w r :
  http_get env (fetch_request cfg url etag lm) = Answer r ->
  status_code r <> 304%Z -> ~ (400 <= status_code r < 600)%Z ->
  fst (fetch_content cfg env url etag lm w)
  = fst (fetch_content cfg (answering env (with_status r 200)) url etag lm w).
Proof.
  intros Hr H304 Hs. unfold fetch_request in Hr.
  unfold fetch_content, requests_get, raise_for_status, bind, log, ret.
  cbv beta zeta. cbn [answering http_get with_status status_code headers text].
  rewrite Hr.
  replace (status_code r =? 304)%Z with false by lia.
  replace ((400 <=? status_code r) && (status_code r <? 600))%Z with false by lia.
  cbn [Z.eqb Pos.eqb andb Z.leb Z.ltb Z.compare Pos.compare Pos.compare_cont].
  destruct (lift (BeautifulSoup (text r)) _) as [[soup|e0] w0]; [|reflexivity].
  reflexivity.
Qed.

End FetchEdges.

(** X8: when the configured selector matches nothing in the page, the fetch
    (and so the run) is the one of a configuration without selector: the
    text of the whole page is taken, silently. *)
Theorem X8_selector_without_match_falls_back {lib : Library} (cfg : config)
  (env : environment) (w : world) (url : string) (etag lm : value) (r : response) :
  http_get env (fetch_request cfg url etag lm) = Answer r ->
  (forall soup, BeautifulSoup (text r) = Ret soup ->
                select_one soup (CSS_SELECTOR cfg) = Ret None) ->
  fetch_content cfg env url etag lm w
  = fetch_content (without_css_selector cfg) env url etag lm w.
Proof.
  intros Hr Hs.
  unfold fetch_content, requests_get, raise_for_status, re_sub, try_except,
    lift, bind, log, ret, raise.
  cbv beta zeta. cbn [CSS_SELECTOR IGNORE_REGEX without_css_selector].
  change (conditional_headers (without_css_selector cfg) etag lm)
    with (conditional_headers cfg etag lm).
  unfold fetch_request in Hr. rewrite Hr.
  destruct (status_code r =? 304)%Z; [reflexivity|].
  destruct (_ && _); [reflexivity|].
  destruct (BeautifulSoup (text r)) as [soup|e] eqn:Hsoup; [|reflexivity].
  rewrite (Hs soup eq_refl). cbn [nonempty String.eqb negb].
  destruct (nonempty (CSS_SELECTOR cfg)); reflexivity.
Qed.

Lemma X8_witness :
  let cfg := {| TARGET_URL := Some "https://example.com"; CSS_SELECTOR := "main";
                IGNORE_REGEX := ""; USER_AGENT := "ChangeWatcher/1.2 (+github actions)";
                NTFY_SERVER := "https://ntfy.sh"; NTFY_TOPIC := "m2";
                NOTIFY_TEMPLATE := ""; NOTIFY_PREFIX := "";
                NOTIFY_TITLE := None |} in
  let env := Scenario.env_of (Scenario.server "v1" "some text") in
  fetch_content (lib := plain_library) cfg env "https://example.com" VNone VNone
    Scenario.first_run
  = fetch_content (lib := plain_library) (without_css_selector cfg) env
      "https://example.com" VNone VNone Scenario.first_run.
Proof.
  intros cfg env.
  apply (X8_selector_without_match_falls_back (lib := plain_library) cfg env
           Scenario.first_run "https://example.com" VNone VNone
           {| status_code := 200; headers := Scenario.with_etag "v1";
              text := "some text" |}).
  - reflexivity.
  - intros soup H. injection H as <-. reflexivity.
Defined.

(** X9: after a completed run on an answer other than 304, the stored
    validators are those of the answer's headers; a validator the answer
    does not name keeps its stored value. *)
Theorem X9_validators_fall_back {lib : Library} (cfg : config) (env : environment)
  (w : world) (target : string) (r : response) :
  TARGET_URL cfg = Some target -> nonempty target = true ->
  let st := loaded w in
  http_get env (fetch_request cfg target (dict_get st "etag") (dict_get st "last_modified"))
    = Answer r ->
  status_code r <> 304%Z ->
  fst (main cfg env w) = Ret tt ->
  let st' := loaded (snd (main cfg env w)) in
  dict_get st' "etag"
    = match headers r "ETag" with Some s => VStr s | None => dict_get st "etag" end /\
  dict_get st' "last_modified"
    = match headers r "Last-Modified" with
      | Some s => VStr s
      | None => dict_get st "last_modified"
      end.
Proof.
  intros Ht Hn st Hr H304 Hret st'. subst st'.
  destruct (fetch_content cfg env target (dict_get st "etag")
              (dict_get st "last_modified") w)
    as [[[[[c e] l] nm]|ex] w1] eqn:E.
  2: { rewrite (main_fetch_raises cfg env target w ex w1 Ht Hn E) in Hret.
       discriminate Hret. }
  destruct nm.
  - exfalso. apply H304.
    exact (fetch_content_304 cfg env _ _ _ _ _ _ _ _ _ Hr E).
  - destruct (fetch_content_validators cfg env _ _ _ _ _ _ _ _ _ Hr E) as [He Hl].
    destruct (fetch_content_modified _ _ _ _ _ _ _ _ _ _ E) as [s ->].
    destruct (decide (VStr (sha256 s) = dict_get st "last_hash")) as [Hh|Hh].
    + rewrite (main_same_hash cfg env target w w1 e l Ht Hn s E Hh).
      cbn [snd written loaded state_file]. unfold bookkeeping.
      rewrite 2!(dict_get_insert_ne _ "last_ok_run") by done.
      rewrite dict_get_insert_eq, dict_get_insert_ne, dict_get_insert_eq by done.
      now split.
    + destruct (stored_excerpt st) as [old|] eqn:Ho.
      * rewrite (main_changed cfg env target w w1 e l Ht Hn s old E Hh Ho).
        cbn [snd written loaded state_file]. unfold bookkeeping.
        rewrite 2!(dict_get_insert_ne _ "last_ok_run") by done.
        rewrite dict_get_insert_eq, dict_get_insert_ne, dict_get_insert_eq by done.
        now split.
      * rewrite (main_bad_excerpt cfg env target w w1 s e l Ht Hn E Hh Ho) in Hret.
        discriminate Hret.
Qed.

Lemma X9_witness :
  let w := Scenario.later_run (Scenario.stored "old text" "v1" 1700000000) in
  let env := Scenario.env_of (fun _ => Answer {| status_code := 200;
               headers := Scenario.no_headers; text := "new text" |}) in
  let st' := loaded (snd (main (lib := plain_library) Scenario.cfg env w)) in
  dict_get st' "etag" = VStr "v1" /\ dict_get st' "last_modified" = VNone.
Proof.
  intros w env.
  apply (X9_validators_fall_back (lib := plain_library) Scenario.cfg env w
           "https://example.com"
           {| status_code := 200; headers := Scenario.no_headers; text := "new text" |}).
  - reflexivity.
  - reflexivity.
  - reflexivity.
  - discriminate.
  - vm_compute. reflexivity.
Defined.

(** X10: what the status of an answer means to [fetch_content]: 304 gives
    "not modified" with the validators that were sent; a status from 400 to
    599 raises the HTTP error; every other status, 200 or not, is read as a
    page: the result is the one the same answer gives under status 200, and
    when it is a value, it is a text with the validators of the answer, not
    "not modified". *)
Theorem X10_status_classes {lib : Library} (cfg : config) (env : environment)
  (w : world) (url : string) (etag lm : value) (r : response) :
  http_get env (fetch_request cfg url etag lm) = Answer r ->
  let s := status_code r in
  let result := fst (fetch_content cfg env url etag lm w) in
  (s = 304%Z -> result = Ret (None, etag, lm, true)) /\
  ((400 <= s < 600)%Z -> result = Raise (HTTPError s)) /\
  (s <> 304%Z -> ~ (400 <= s < 600)%Z ->
   result = fst (fetch_content cfg (answering env (with_status r 200)) url etag lm w) /\
   forall v, result = Ret v ->
     exists content,
       v = (Some content,
            match headers r "ETag" with Some t => VStr t | None => etag end,
            match headers r "Last-Modified" with Some t => VStr t | None => lm end,
            false)).
Proof.
  intros Hr s result. subst s result.
  split; [|split].
  - intros H304. revert Hr.
    unfold fetch_content, requests_get, raise_for_status, bind, log, ret, raise,
      fetch_request.
    cbv beta zeta. intros ->. now rewrite H304.
  - intros Hs.
    now rewrite (fetch_content_http_error cfg env url etag lm w r Hr Hs).
  - intros H304 Hs. split.
    + exact (fetch_content_status cfg env url etag lm w r Hr H304 Hs).
    + intros [[[c e] l] nm] Hv.
      destruct (fetch_content cfg env url etag lm w) as [res w1] eqn:E.
      cbn [fst] in Hv. subst res.
      destruct nm.
      * exfalso. apply H304.
        exact (fetch_content_304 cfg env _ _ _ _ _ _ _ _ _ Hr E).
      * destruct (fetch_content_validators cfg env _ _ _ _ _ _ _ _ _ Hr E) as [-> ->].
        destruct (fetch_content_modified _ _ _ _ _ _ _ _ _ _ E) as [content ->].
        now exists content.
Qed.

Lemma X10_witness :
  let r := {| status_code := 300; headers := Scenario.no_headers;
              text := "Multiple Choices" |} in
  let env := Scenario.env_of (fun _ => Answer r) in
  let result := fst (fetch_content (lib := plain_library) Scenario.cfg env
                       "https://example.com" VNone VNone Scenario.first_run) in
  result = fst (fetch_content (lib := plain_library) Scenario.cfg
                  (answering env (with_status r 200))
                  "https://example.com" VNone VNone Scenario.first_run) /\
  result = Ret (Some "Multiple Choices", VNone, VNone, false).
Proof.
  intros r env result.
  destruct (X10_status_classes (lib := plain_library) Scenario.cfg env Scenario.first_run
              "https://example.com" VNone VNone r eq_refl) as (_ & _ & H).
  cbv zeta in H.
  assert (H1 : status_code r <> 304%Z) by discriminate.
  assert (H2 : ~ (400 <= status_code r < 600)%Z) by (simpl; lia).
  destruct (H H1 H2) as [H3 _].
  split; [exact H3 | reflexivity].
Defined.

(** X11: a stored [last_excerpt] that is present but no string (a [null],
    say) stops every run that fetches a text with a new fingerprint: the run
    raises after the GET request, sends no notification and writes nothing. *)
Theorem X11_excerpt_must_be_a_string {lib : Library} (cfg : config) (env : environment)
  (w w1 : world) (target content : string) (etag lm v : value) :
  TARGET_URL cfg = Some target -> nonempty target = true ->
  let st := loaded w in
  st !! "last_excerpt" = Some v -> (forall s, v <> VStr s) ->
  fetch_content cfg env target (dict_get st "etag") (dict_get st "last_modified") w
    = (Ret (Some content, etag, lm, false), w1) ->
  VStr (sha256 content) <> dict_get st "last_hash" ->
  fst (main cfg env w) = Raise AttributeError /\
  new_events w (snd (main cfg env w))
    = [Http (fetch_request cfg target (dict_get st "etag") (dict_get st "last_modified"))] /\
  state_file (snd (main cfg env w)) = state_file w.
Proof.
  intros Ht Hn st Hv Hs E Hh.
  assert (Ho : stored_excerpt st = None).
  { unfold stored_excerpt. rewrite Hv. destruct v; try reflexivity. now destruct (Hs s). }
  rewrite (main_bad_excerpt cfg env target w w1 content etag lm Ht Hn E Hh Ho).
  pose proof (fetch_content_world _ _ _ _ _ _ _ _ E) as ->.
  cbn [fst snd]. now rewrite new_events_get.
Qed.

Lemma X11_witness :
  let st := <["last_excerpt" := VNone]> (Scenario.stored "old text" "v1" 1700000000) in
  let w := Scenario.later_run st in
  let env := Scenario.env_of (Scenario.server "v2" "new text") in
  fst (main (lib := plain_library) Scenario.cfg env w) = Raise AttributeError /\
  new_events w (snd (main (lib := plain_library) Scenario.cfg env w))
    = [Http (fetch_request (lib := plain_library) Scenario.cfg "https://example.com"
               (dict_get st "etag") (dict_get st "last_modified"))] /\
  state_file (snd (main (lib := plain_library) Scenario.cfg env w)) = state_file w.
Proof.
  intros st w env.
  apply (X11_excerpt_must_be_a_string (lib := plain_library) Scenario.cfg env w
           (snd (fetch_content (lib := plain_library) Scenario.cfg env
                   "https://example.com" (VStr "v1") VNone w))
           "https://example.com" "new text" (VStr "v2") VNone VNone).
  - reflexivity.
  - reflexivity.
  - vm_compute. reflexivity.
  - discriminate.
  - vm_compute. reflexivity.
  - vm_compute. discriminate.
Defined.

(** ** Excerpts and messages *)

(** A quiet line that is not empty is read back as itself. *)
Lemma splitlines_quiet_one l :
  quiet l -> l <> "" -> splitlines_from 0 l = [l].
Proof.
  induction l as [|c v IH]; intros Hq Hl; [congruence|].
  destruct Hq as [Hb Hq]. cbn [splitlines_from].
  rewrite (boundary_len_shrink _ _ Hb).
  destruct v as [|d v']; [reflexivity|].
  now rewrite IH.
Qed.

(** Lines put together with line feeds are read back as they were, unless
    the last one is empty. *)
Lemma splitlines_join ls :
  Forall quiet ls -> List.last ls "x" <> "" -> splitlines (join nl ls) = ls.
Proof.
  unfold splitlines, join. induction 1 as [|l t Hl Ht IH]; intros Hlast; [reflexivity|].
  destruct t as [|l' t'].
  - cbn [String.concat]. now apply splitlines_quiet_one.
  - change (String.concat nl (l :: l' :: t'))
      with (l +:+ String "010" (String.concat nl (l' :: t'))).
    rewrite (splitlines_quiet_line l Hl). f_equal. now apply IH.
Qed.

(** X12: the stored excerpt never has more lines than 400, nor more than
    the text; and for a text of at most 400 lines whose last line is not
    empty, the lines read back from the excerpt are exactly the lines of the
    text, so that the next diff starts from what was really seen. *)
Theorem X12_excerpt_keeps_the_lines (content : string) :
  length (splitlines (excerpt content)) <= Nat.min 400 (length (splitlines content)) /\
  (length (splitlines content) <= 400 ->
   List.last (splitlines content) "x" <> "" ->
   splitlines (excerpt content) = splitlines content).
Proof.
  split.
  - unfold excerpt.
    etransitivity; [apply splitlines_join_length; apply Forall_take, splitlines_from_quiet|].
    rewrite length_take. lia.
  - intros Hlen Hlast. unfold excerpt.
    rewrite take_ge by exact Hlen.
    apply splitlines_join; [apply splitlines_from_quiet | exact Hlast].
Qed.

Lemma X12_witness :
  let content := "first" +:+ nl +:+ nl +:+ "third" +:+ CRLF +:+ "fourth" +:+ nl in
  splitlines (excerpt content) = splitlines content.
Proof.
  intros content.
  apply (X12_excerpt_keeps_the_lines content).
  - vm_compute. lia.
  - vm_compute. discriminate.
Defined.

Lemma contains_here n s : contains n (n +:+ s) = true.
Proof.
  destruct n as [|c n]; [now destruct s|].
  rewrite append_cons. cbn [contains]. rewrite <- append_cons.
  now rewrite startswith_append.
Qed.

Lemma contains_self n : contains n n = true.
Proof. rewrite <- (append_empty_r n) at 2. apply contains_here. Qed.

Lemma contains_later n a s : contains n s = true -> contains n (a +:+ s) = true.
Proof.
  intros H. induction a as [|c a IH]; [exact H|].
  rewrite append_cons. cbn [contains]. rewrite IH. apply orb_true_r.
Qed.

(** X13: without a template, the message holds the prefix, the URL, the
    time and the diff as they are, whatever characters they are made of. *)
Theorem X13_default_message_is_verbatim (cfg : config) (now url diff : string) :
  NOTIFY_TEMPLATE cfg = "" ->
  let msg := message_text cfg now url diff in
  startswith msg (NOTIFY_PREFIX cfg +:+ nl) = true /\
  contains ("URL: " +:+ url +:+ nl) msg = true /\
  contains ("Zeit: " +:+ now +:+ nl) msg = true /\
  contains ("```" +:+ nl +:+ diff +:+ nl +:+ "```") msg = true.
Proof.
  intros Ht msg. subst msg. unfold message_text. rewrite Ht.
  cbn [nonempty String.eqb negb].
  split; [|split; [|split]].
  - rewrite <- append_assoc. apply startswith_append.
  - apply contains_later, contains_later.
    rewrite <- (append_assoc url nl), <- (append_assoc "URL: " (url +:+ nl)).
    apply contains_here.
  - do 5 apply contains_later.
    rewrite <- (append_assoc now nl), <- (append_assoc "Zeit: " (now +:+ nl)).
    apply contains_here.
  - do 11 apply contains_later. apply contains_self.
Qed.

Lemma X13_witness :
  let cfg := {| TARGET_URL := Some "https://example.com/{TIME}/feed"; CSS_SELECTOR := "";
                IGNORE_REGEX := ""; USER_AGENT := "ChangeWatcher/1.2 (+github actions)";
                NTFY_SERVER := "https://ntfy.sh"; NTFY_TOPIC := "m2";
                NOTIFY_TEMPLATE := ""; NOTIFY_PREFIX := "Change";
                NOTIFY_TITLE := None |} in
  let msg := message_text cfg "2024-01-01 00:00:00 UTC" "https://example.com/{TIME}/feed"
               "+{DIFF}" in
  startswith msg ("Change" +:+ nl) = true /\
  contains ("URL: " +:+ "https://example.com/{TIME}/feed" +:+ nl) msg = true /\
  contains ("Zeit: " +:+ "2024-01-01 00:00:00 UTC" +:+ nl) msg = true /\
  contains ("```" +:+ nl +:+ "+{DIFF}" +:+ nl +:+ "```") msg = true.
Proof.
  intros cfg.
  apply (X13_default_message_is_verbatim cfg). reflexivity.
Defined.

(** ** Times *)

(** X14: with a clock that does not run backwards, a completed run keeps
    the stored times in order: the time of the last change is never later
    than the time of the last run, which is the last reading of the clock. *)
Theorem X14_times_stay_in_order {lib : Library} (cfg : config) (env : environment)
  (w : world) :
  (forall i j, i <= j -> (clock env i <= clock env j)%Z) ->
  in_order (loaded w) (clock env (ticks w)) ->
  fst (main cfg env w) = Ret tt ->
  let w' := snd (main cfg env w) in
  in_order (loaded w') (clock env (Nat.pred (ticks w'))) /\
  dict_get (loaded w') "last_ok_run" = VInt (clock env (Nat.pred (ticks w'))).
Proof.
  intros Hmono Hord Hret w'. subst w'. unfold in_order in *.
  destruct (main_path cfg env w); cbn [fst snd] in *; try discriminate Hret; try subst w1.
  - cbn [written loaded state_file ticks after_get Nat.add Nat.pred].
    rewrite dict_get_insert_ne, dict_get_insert_eq by done.
    split; [|reflexivity].
    destruct (dict_get (loaded w) "updated_at"), (dict_get (loaded w) "last_ok_run");
      try contradiction; lia.
  - cbn [written loaded state_file ticks after_get Nat.add Nat.pred]. unfold bookkeeping.
    rewrite 3!(dict_get_insert_ne _ _ "updated_at"), dict_get_insert_eq by done.
    split; [|reflexivity].
    destruct (dict_get (loaded w) "updated_at"), (dict_get (loaded w) "last_ok_run");
      try contradiction; lia.
  - cbn [written loaded state_file ticks after_get Nat.add Nat.pred].
    unfold bookkeeping, record_change.
    rewrite 3!(dict_get_insert_ne _ _ "updated_at"), 2!dict_get_insert_eq by done.
    split; [|reflexivity].
    split; [apply Hmono; lia | lia].
Qed.

Lemma X14_witness :
  let w := Scenario.later_run (Scenario.stored "old text" "v1" 1700000000) in
  let env := Scenario.env_of (Scenario.server "v2" "new text") in
  let w' := snd (main (lib := plain_library) Scenario.cfg env w) in
  in_order (loaded w') (clock env (Nat.pred (ticks w'))) /\
  dict_get (loaded w') "last_ok_run" = VInt (clock env (Nat.pred (ticks w'))).
Proof.
  intros w env.
  apply (X14_times_stay_in_order (lib := plain_library) Scenario.cfg env w).
  - intros i j Hij. cbn. unfold Scenario.seconds. lia.
  - vm_compute. split; discriminate.
  - vm_compute. reflexivity.
Defined.

(** ** Configuration *)

Lemma rstrip_char_spec c s :
  ends_with_char c (rstrip_char c s) = false /\
  exists k, s = rstrip_char c s +:+ repeat_char c k.
Proof.
  induction s as [|d r [IHe [k IHk]]]; [split; [reflexivity | now exists 0]|].
  cbn [rstrip_char]. destruct (rstrip_char c r) as [|e r'] eqn:Er.
  - rewrite append_nil in IHk. destruct (Ascii.eqb_spec c d) as [<-|Hcd].
    + split; [reflexivity|]. exists (S k). now rewrite IHk.
    + split.
      * cbn [ends_with_char]. now apply Ascii.eqb_neq.
      * exists k. now rewrite IHk.
  - split; [exact IHe|]. exists k. rewrite append_cons. now f_equal.
Qed.

(** X15: the configured server address never ends with a slash: it is the
    value of [NTFY_SERVER] (or the default) with all its final slashes taken
    off, and with a topic configured [send_ntfy] sends one POST request, to
    this address, one slash and the topic, with the text as its body. *)
Theorem X15_server_without_final_slash {lib : Library} (getenv : string -> option string) :
  let cfg := configure getenv in
  ends_with_char "/" (NTFY_SERVER cfg) = false /\
  (exists k, default "https://ntfy.sh" (getenv "NTFY_SERVER")
             = NTFY_SERVER cfg +:+ repeat_char "/" k) /\
  (getenv "NTFY_SERVER" = None -> NTFY_SERVER cfg = "https://ntfy.sh") /\
  forall env title text w,
    nonempty (NTFY_TOPIC cfg) = true ->
    exists rq,
      trace (snd (send_ntfy cfg env title text w)) = trace w ++ [Http rq] /\
      req_method rq = POST /\
      req_url rq = rstrip_char "/" (default "https://ntfy.sh" (getenv "NTFY_SERVER"))
                   +:+ "/" +:+ NTFY_TOPIC cfg /\
      req_data rq = text.
Proof.
  intros cfg.
  destruct (rstrip_char_spec "/" (default "https://ntfy.sh" (getenv "NTFY_SERVER")))
    as [He Hk].
  split; [exact He|]. split; [exact Hk|]. split.
  - subst cfg. cbn [configure NTFY_SERVER]. intros ->. reflexivity.
  - intros env title text w Ht.
    rewrite send_ntfy_run. unfold ntfy_events. rewrite Ht.
    eexists. split; [reflexivity|]. repeat split.
Qed.

Lemma X15_witness :
  let getenv := fun k => if String.eqb k "NTFY_SERVER" then Some "https://push.example//"
                         else if String.eqb k "NTFY_TOPIC" then Some "m2" else None in
  let cfg := configure (lib := plain_library) getenv in
  NTFY_SERVER cfg = "https://push.example" /\
  exists rq,
    trace (snd (send_ntfy cfg (Scenario.env_of Scenario.broken)
                  "t" "x" Scenario.first_run)) = [Http rq] /\
    req_method rq = POST /\ req_url rq = "https://push.example/m2" /\ req_data rq = "x".
Proof.
  intros getenv cfg.
  destruct (X15_server_without_final_slash (lib := plain_library) getenv)
    as (_ & _ & _ & H).
  split; [reflexivity|].
  destruct (H (Scenario.env_of Scenario.broken) "t" "x" Scenario.first_run eq_refl)
    as (rq & H1 & H2 & H3 & H4).
  exists rq. repeat split; assumption.
Defined.

(** X16: without [TARGET_URL] in the environment (or with an empty one) the
    run stops at once with the assertion error: no request is sent, the
    clock is not read and nothing is written. *)
Theorem X16_missing_target_stops_the_run {lib : Library} (getenv : string -> option string)
  (env : environment) (w : world) :
  getenv "TARGET_URL" = None \/ getenv "TARGET_URL" = Some "" ->
  main (configure getenv) env w
  = (Raise (AssertionError "TARGET_URL fehlt als Umgebungsvariable."), w).
Proof.
  intros [H|H]; unfold main; cbn [configure TARGET_URL]; now rewrite H.
Qed.

Lemma X16_witness :
  main (lib := plain_library) (configure (lib := plain_library) (fun _ => None))
    (Scenario.env_of Scenario.broken) Scenario.first_run
  = (Raise (AssertionError "TARGET_URL fehlt als Umgebungsvariable."), Scenario.first_run).
Proof.
  apply (X16_missing_target_stops_the_run (lib := plain_library)).
  now left.
Defined.
